(** * DataLab simple client: remote proxy, connection policy and codecs

    A shallow embedding of [cdl_client/remote.py] and
    [cdlclient/baseproxy.py].

    - Python exceptions are values of [exn]; a computation that may raise
      returns a [result].
    - Code that talks to the outside (environment variables, the DataLab
      configuration file, the XML-RPC server, [time.sleep], printing) runs
      in the state monad [M] over [pstate]; everything it does outside is
      appended to a trace of [event]s.
    - NumPy's [np.save] / [np.load] are library routines; they are modelled
      after the NPY file format (versions 1.0 and 2.0) in [Module Npy].
    - guidata, PlotPy, [configparser] and the XML-RPC transport are the
      fields of [Platform] and [Server]: the statements hold for whatever
      they do. *)

From Stdlib Require Import ZArith NArith QArith List String Ascii Lia.
From Stdlib.Strings Require Import Byte.
From stdpp Require Import base option gmap strings.

Import ListNotations.
Set Warnings "-register-all".
Local Open Scope string_scope.
Local Open Scope list_scope.

(** ** Python exceptions and results *)

Inductive exn : Type :=
| ValueError (msg : string)
| TypeError (msg : string)
| AttributeError (msg : string)
| ImportError (msg : string)
| NoSectionError (section : string)
| NoOptionError (option section : string)
| ConnectionRefusedError
| CDLConnectionError (msg : string)
| OtherError (msg : string).

Inductive result (A : Type) : Type :=
| Ok (a : A)
| Raise (e : exn).

Arguments Ok {A} a.
Arguments Raise {A} e.

Definition is_CDLConnectionError (e : exn) : bool :=
  match e with CDLConnectionError _ => true | _ => false end.

(** ** Decimal text of a Python integer *)

Definition digit_of_N (d : N) : ascii := ascii_of_N (48 + d).

Definition is_digit (c : ascii) : bool :=
  ((48 <=? N_of_ascii c) && (N_of_ascii c <=? 57))%N.

Definition N_of_digit (c : ascii) : N := (N_of_ascii c - 48)%N.

Fixpoint repr_digits (fuel : nat) (n : N) (acc : string) : string :=
  match fuel with
  | O => acc
  | S fuel' =>
      let acc' := String (digit_of_N (n mod 10)) acc in
      if (n <? 10)%N then acc' else repr_digits fuel' (n / 10) acc'
  end.

(** [repr(n)] for a non-negative int. *)
Definition repr_N (n : N) : string :=
  repr_digits (S (N.to_nat (N.log2 n))) n "".

(** The longest run of ASCII digits at the head of [s], read in base ten on
    top of [acc], and what follows it. *)
Fixpoint parse_digits (s : string) (acc : N) : N * string :=
  match s with
  | String c s' =>
      if is_digit c then parse_digits s' (10 * acc + N_of_digit c)%N
      else (acc, s)
  | EmptyString => (acc, s)
  end.

Definition starts_with_digit (s : string) : bool :=
  match s with
  | String c _ => is_digit c
  | EmptyString => false
  end.

Fixpoint strip_prefix (p s : string) : option string :=
  match p with
  | EmptyString => Some s
  | String a p' =>
      match s with
      | String b s' => if Ascii.eqb a b then strip_prefix p' s' else None
      | EmptyString => None
      end
  end.

(** ** NumPy arrays and the NPY format *)

Module Npy.

Inductive byteorder : Type := Little | Big | NotApplicable.

(** The dtype kinds whose [dtype.str] is a byte-order character, a kind
    character and a number: bool, signed and unsigned integers, floats,
    complex numbers, byte strings, unicode strings, raw void; and Python
    objects. *)
Inductive kind : Type :=
| KBool | KInt | KUInt | KFloat | KComplex | KBytes | KUnicode | KVoid
| KObject.

Record dtype : Type := Dtype {
  dt_order : byteorder;
  dt_kind : kind;
  dt_num : N            (* the number that ends [dtype.str] *)
}.

(** What [np.save] and array equality observe of an array: its dtype, its
    shape, whether it is Fortran-contiguous (and not C-contiguous), and
    the bytes of its elements, in Fortran order when [fortran] is set and
    in C order otherwise. *)
Record ndarray : Type := Ndarray {
  a_dtype : dtype;
  a_shape : list N;
  a_fortran : bool;
  a_data : list byte
}.

Definition hasobject (d : dtype) : bool :=
  match dt_kind d with KObject => true | _ => false end.

Definition itemsize (d : dtype) : N :=
  match dt_kind d with
  | KUnicode => 4 * dt_num d
  | KObject => 8
  | _ => dt_num d
  end%N.

Definition count (shape : list N) : N := fold_right N.mul 1%N shape.

Definition nbytes (a : ndarray) : N :=
  (count (a_shape a) * itemsize (a_dtype a))%N.

(** Bounds NumPy puts on any array: at most 64 dimensions, every
    dimension below 2^63, an item size that fits a C int, and an element
    buffer of [nbytes] bytes. *)
Definition NPY_MAXDIMS : nat := 64.

Definition wf_ndarray (a : ndarray) : Prop :=
  (length (a_shape a) <= NPY_MAXDIMS)%nat /\
  Forall (fun d => (d < 2 ^ 63)%N) (a_shape a) /\
  (dt_num (a_dtype a) < 2 ^ 31)%N /\
  N.of_nat (length (a_data a)) = nbytes a.

(** *** Header text *)

Definition order_char (o : byteorder) : ascii :=
  match o with Little => "<" | Big => ">" | NotApplicable => "|" end%char.

Definition kind_char (k : kind) : ascii :=
  match k with
  | KBool => "b" | KInt => "i" | KUInt => "u" | KFloat => "f"
  | KComplex => "c" | KBytes => "S" | KUnicode => "U" | KVoid => "V"
  | KObject => "O"
  end%char.

(** [dtype.str], e.g. [<f8], [|u1], [<U5], [|O]. *)
Definition dtype_str (d : dtype) : string :=
  String (order_char (dt_order d))
    (String (kind_char (dt_kind d))
       (match dt_kind d with KObject => "" | _ => repr_N (dt_num d) end)).

Definition repr_bool (b : bool) : string := if b then "True" else "False".

Fixpoint repr_items (l : list N) : string :=
  match l with
  | [] => ""
  | [n] => repr_N n
  | n :: l' => repr_N n ++ ", " ++ repr_items l'
  end.

(** [repr] of a tuple of ints: [()], [(3,)], [(3, 4)]. *)
Definition repr_shape (l : list N) : string :=
  match l with
  | [] => "()"
  | [n] => "(" ++ repr_N n ++ ",)"
  | _ => "(" ++ repr_items l ++ ")"
  end.

(** The header dictionary, keys sorted, as [_write_array_header] joins
    it. Recent NumPy versions append a few more blanks after the closing
    brace, to leave room for a longer shape; the reader skips blanks, so
    they are left out here. *)
Definition header_dict (a : ndarray) : string :=
  "{'descr': '" ++ dtype_str (a_dtype a) ++
  "', 'fortran_order': " ++ repr_bool (a_fortran a) ++
  ", 'shape': " ++ repr_shape (a_shape a) ++ ", }".

Definition ARRAY_ALIGN : N := 64.
Definition MAGIC_LEN : N := 8.

Definition MAGIC_PREFIX : list byte := [x93; x4e; x55; x4d; x50; x59].

Definition byte_of_N (n : N) : byte :=
  match Byte.of_N n with Some b => b | None => x00 end.

(** [struct.pack] of an unsigned little-endian integer on [w] bytes. *)
Fixpoint pack_le (w : nat) (n : N) : list byte :=
  match w with
  | O => []
  | S w' => byte_of_N (n mod 256) :: pack_le w' (n / 256)
  end.

Fixpoint unpack_le (bs : list byte) : N :=
  match bs with
  | [] => 0
  | b :: bs' => Byte.to_N b + 256 * unpack_le bs'
  end%N.

Fixpoint spaces (n : nat) : string :=
  match n with O => "" | S n' => String " " (spaces n') end.

Definition newline : ascii := ascii_of_N 10.

(** [_wrap_header]: magic, version, header length on [w] bytes, then the
    header padded with spaces and closed by a newline so that the data
    start on a multiple of [ARRAY_ALIGN]. *)
Definition wrap_header (header : string) (major : N) (w : nat)
  : option (list byte) :=
  let hlen := (N.of_nat (String.length header) + 1)%N in
  let padlen :=
    (ARRAY_ALIGN - ((MAGIC_LEN + N.of_nat w + hlen) mod ARRAY_ALIGN))%N in
  if (hlen + padlen <? 256 ^ N.of_nat w)%N then
    Some (MAGIC_PREFIX ++ [byte_of_N major; x00] ++
          pack_le w (hlen + padlen) ++
          list_byte_of_string
            (header ++ spaces (N.to_nat padlen) ++ String newline ""))
  else None.

(** [_wrap_header_guess_version]: version 1.0 when the length fits two
    bytes, else version 2.0 with four. *)
Definition wrap_header_guess_version (header : string)
  : result (list byte) :=
  match wrap_header header 1 2 with
  | Some bs => Ok bs
  | None =>
      match wrap_header header 2 4 with
      | Some bs => Ok bs
      | None => Raise (ValueError "Header length too big")
      end
  end.

(** [np.save(file, arr, allow_pickle=False)] into a fresh [BytesIO]: the
    bytes the buffer holds afterwards. *)
Definition save (a : ndarray) : result (list byte) :=
  match wrap_header_guess_version (header_dict a) with
  | Raise e => Raise e
  | Ok hdr =>
      if hasobject (a_dtype a) then
        Raise (ValueError
                 "Object arrays cannot be saved when allow_pickle=False")
      else Ok (hdr ++ a_data a)
  end.

(** *** Reading *)

Definition parse_order (c : ascii) : option byteorder :=
  if Ascii.eqb c "<" then Some Little
  else if Ascii.eqb c ">" then Some Big
  else if Ascii.eqb c "|" then Some NotApplicable
  else None.

Definition parse_kind (c : ascii) : option kind :=
  if Ascii.eqb c "b" then Some KBool
  else if Ascii.eqb c "i" then Some KInt
  else if Ascii.eqb c "u" then Some KUInt
  else if Ascii.eqb c "f" then Some KFloat
  else if Ascii.eqb c "c" then Some KComplex
  else if Ascii.eqb c "S" then Some KBytes
  else if Ascii.eqb c "U" then Some KUnicode
  else if Ascii.eqb c "V" then Some KVoid
  else if Ascii.eqb c "O" then Some KObject
  else None.

Definition parse_number (s : string) : option (N * string) :=
  if starts_with_digit s then Some (parse_digits s 0) else None.

Definition parse_descr (s : string) : option (dtype * string) :=
  match s with
  | String o (String k s') =>
      match parse_order o, parse_kind k with
      | Some o', Some KObject => Some (Dtype o' KObject 0, s')
      | Some o', Some k' =>
          match parse_number s' with
          | Some (n, s'') => Some (Dtype o' k' n, s'')
          | None => None
          end
      | _, _ => None
      end
  | _ => None
  end.

Definition parse_bool (s : string) : option (bool * string) :=
  match strip_prefix "True" s with
  | Some s' => Some (true, s')
  | None =>
      match strip_prefix "False" s with
      | Some s' => Some (false, s')
      | None => None
      end
  end.

(** The items of a tuple of ints after its opening parenthesis, up to and
    including the closing one. *)
Fixpoint parse_items (fuel : nat) (s : string) : option (list N * string) :=
  match fuel with
  | O => None
  | S fuel' =>
      match parse_number s with
      | None => None
      | Some (n, s1) =>
          match strip_prefix ")" s1 with
          | Some s2 => Some ([n], s2)
          | None =>
              match strip_prefix ",)" s1 with
              | Some s2 => Some ([n], s2)
              | None =>
                  match strip_prefix ", " s1 with
                  | Some s2 =>
                      match parse_items fuel' s2 with
                      | Some (l, s3) => Some (n :: l, s3)
                      | None => None
                      end
                  | None => None
                  end
              end
          end
      end
  end.

Definition parse_shape (s : string) : option (list N * string) :=
  match strip_prefix "(" s with
  | None => None
  | Some s1 =>
      match strip_prefix ")" s1 with
      | Some s2 => Some ([], s2)
      | None => parse_items (String.length s1) s1
      end
  end.

(** Only blanks and the closing newline are left. *)
Fixpoint is_padding (s : string) : bool :=
  match s with
  | EmptyString => true
  | String c s' =>
      (Ascii.eqb c " " || Ascii.eqb c newline) && is_padding s'
  end.

(** The header dictionary read back. NumPy evaluates the text as a Python
    literal; this reader takes the three keys in the order the writer
    emits them, which is all a blob made by [save] needs. *)
Definition parse_header (h : string) : option (dtype * bool * list N) :=
  match strip_prefix "{'descr': '" h with
  | None => None
  | Some s1 =>
  match parse_descr s1 with
  | None => None
  | Some (dt, s2) =>
  match strip_prefix "', 'fortran_order': " s2 with
  | None => None
  | Some s3 =>
  match parse_bool s3 with
  | None => None
  | Some (fo, s4) =>
  match strip_prefix ", 'shape': " s4 with
  | None => None
  | Some s5 =>
  match parse_shape s5 with
  | None => None
  | Some (sh, s6) =>
  match strip_prefix ", }" s6 with
  | None => None
  | Some s7 => if is_padding s7 then Some (dt, fo, sh) else None
  end end end end end end end.

Fixpoint strip_bytes (p bs : list byte) : option (list byte) :=
  match p with
  | [] => Some bs
  | a :: p' =>
      match bs with
      | b :: bs' => if Byte.eqb a b then strip_bytes p' bs' else None
      | [] => None
      end
  end.

(** [fp.read(n)] that insists on [n] bytes. *)
Definition read_bytes (n : nat) (bs : list byte)
  : option (list byte * list byte) :=
  if (n <=? length bs)%nat then Some (firstn n bs, skipn n bs) else None.

(** Width of the header-length field for a format version. *)
Definition hlen_width (major minor : byte) : option nat :=
  if Byte.eqb minor x00 then
    if Byte.eqb major x01 then Some 2%nat
    else if Byte.eqb major x02 then Some 4%nat
    else if Byte.eqb major x03 then Some 4%nat
    else None
  else None.

(** [np.load(file, allow_pickle=False)] on a [BytesIO] over [bs], for
    input that is an NPY file; anything else is refused. *)
Definition load (bs : list byte) : result ndarray :=
  match strip_bytes MAGIC_PREFIX bs with
  | None => Raise (ValueError "Cannot load file containing pickled data when allow_pickle=False")
  | Some (major :: minor :: bs1) =>
      match hlen_width major minor with
      | None => Raise (ValueError "we only support format version (1,0), (2,0), and (3,0)")
      | Some w =>
          match read_bytes w bs1 with
          | None => Raise (ValueError "EOF: reading array header length")
          | Some (lenb, bs2) =>
              match read_bytes (N.to_nat (unpack_le lenb)) bs2 with
              | None => Raise (ValueError "EOF: reading array header")
              | Some (hb, bs3) =>
                  match parse_header (string_of_list_byte hb) with
                  | None => Raise (ValueError "Cannot parse header")
                  | Some (dt, fo, sh) =>
                      if hasobject dt then
                        Raise (ValueError "Object arrays cannot be loaded when allow_pickle=False")
                      else
                        match read_bytes
                                (N.to_nat (count sh * itemsize dt)) bs3 with
                        | None => Raise (ValueError "EOF: reading array data")
                        | Some (d, _) => Ok (Ndarray dt sh fo d)
                        end
                  end
              end
          end
      end
  | Some _ => Raise (ValueError "EOF: reading magic string")
  end.

End Npy.

(** ** The transport codec of [remote.py] *)

(** [xmlrpc.client.Binary]: a wrapper around a byte string. *)
Record Binary : Type := mkBinary { data : list byte }.

(** [array_to_rpcbinary]: save into a [BytesIO], wrap what it holds. *)
Definition array_to_rpcbinary (a : Npy.ndarray) : result Binary :=
  match Npy.save a with
  | Ok dbytes => Ok (mkBinary dbytes)
  | Raise e => Raise e
  end.


Definition demo_array : Npy.ndarray :=
  Npy.Ndarray (Npy.Dtype Npy.Little Npy.KUInt 2) [2; 3]%N false
    [x03; x00; x04; x00; x05; x00; x07; x00; x08; x00; x00; x00].

Definition demo_object_array : Npy.ndarray :=
  Npy.Ndarray (Npy.Dtype Npy.NotApplicable Npy.KObject 0) [1]%N false
    [x00; x00; x00; x00; x00; x00; x00; x00].

(** ** Reading a Python int from text *)

(** ASCII whitespace as [str.strip] and [int] see it. *)
Definition is_space (c : ascii) : bool :=
  let n := N_of_ascii c in
  ((9 <=? n) && (n <=? 13) || (28 <=? n) && (n <=? 32))%N.

Fixpoint lstrip (s : string) : string :=
  match s with
  | String c s' => if is_space c then lstrip s' else s
  | EmptyString => s
  end.

Fixpoint rstrip (s : string) : string :=
  match s with
  | String c s' =>
      match rstrip s' with
      | EmptyString => if is_space c then EmptyString else String c EmptyString
      | r => String c r
      end
  | EmptyString => EmptyString
  end.

(** Decimal digits, single underscores allowed between two digits. *)
Fixpoint int_digits (s : string) (acc : N) (after_digit : bool) : option N :=
  match s with
  | EmptyString => if after_digit then Some acc else None
  | String c s' =>
      if is_digit c then int_digits s' (10 * acc + N_of_digit c)%N true
      else if Ascii.eqb c "_" then
        if after_digit then int_digits s' acc false else None
      else None
  end.

(** [int(s)] for a [str] in base ten: blanks around, an optional sign,
    digits. [None] stands for [ValueError]. The text is ASCII. *)
Definition int_of_str (s : string) : option Z :=
  match lstrip (rstrip s) with
  | String "-" s' => option_map (fun n => Z.opp (Z.of_N n)) (int_digits s' 0 false)
  | String "+" s' => option_map Z.of_N (int_digits s' 0 false)
  | s' => option_map Z.of_N (int_digits s' 0 false)
  end.

(** [int(x)] where [x] is a [str] or [None]. *)
Definition py_int (x : option string) : result Z :=
  match x with
  | None =>
      Raise (TypeError "int() argument must be a string, a bytes-like object or a real number, not 'NoneType'")
  | Some s =>
      match int_of_str s with
      | Some n => Ok n
      | None => Raise (ValueError "invalid literal for int() with base 10")
      end
  end.

(** [str(n)] for an int. *)
Definition repr_Z (n : Z) : string :=
  match n with
  | Zneg p => String "-" (repr_N (Npos p))
  | _ => repr_N (Z.to_N n)
  end.

(** ** [configparser.ConfigParser] after [read] *)

Record ConfigParser : Type := mkConfigParser {
  cp_sections : gmap string (gmap string string);
  cp_defaults : gmap string string
}.

(** [ini.get(section, option)]: the option of the section, else the one of
    the DEFAULT section; the stored values are taken as [get] returns
    them. *)
Definition cp_get (ini : ConfigParser) (section option : string)
  : result string :=
  match cp_sections ini !! section with
  | None =>
      if String.eqb section "DEFAULT" then
        match cp_defaults ini !! option with
        | Some v => Ok v
        | None => Raise (NoOptionError option section)
        end
      else Raise (NoSectionError section)
  | Some d =>
      match d !! option with
      | Some v => Ok v
      | None =>
          match cp_defaults ini !! option with
          | Some v => Ok v
          | None => Raise (NoOptionError option section)
          end
      end
  end.


(** ** The outside of the client *)

(** A port as the client holds it: the int read from the environment, or
    the text read from the configuration file or passed by the caller. *)
Inductive port_t : Type :=
| PortInt (n : Z)
| PortStr (s : string).

(** [f"{port}"]. *)
Definition str_port (p : port_t) : string :=
  match p with PortInt n => repr_Z n | PortStr s => s end.

(** [xmlrpc.client.ServerProxy(uri, allow_none=...)]. *)
Record ServerProxy : Type := mkServerProxy {
  sp_uri : string;
  sp_allow_none : bool
}.

(** The libraries and the machine the client runs on.
    [DataSet] and [PlotItem] are the objects of guidata and PlotPy;
    [world] is everything outside the process: the file system and the
    DataLab server, which may change at every interaction and while the
    client sleeps. Durations are exact rationals: a Python float is taken
    as the number it denotes, and the rounding of float arithmetic is
    left out. *)
Class Platform : Type := {
  DataSet : Type;
  klass_module : DataSet -> string;     (* [param.__class__.__module__] *)
  klass_name : DataSet -> string;       (* [param.__class__.__name__] *)
  serialize_json : DataSet -> result string;
                                        (* [param.serialize(writer)] then
                                           [writer.get_json()] *)
  PlotItem : Type;
  save_items_json : list PlotItem -> result string;
                                        (* [save_items(writer, items)] then
                                           [writer.get_json(indent=4)] *)
  plotpy_installed : bool;
  sys_platform : string;
  get_config_basedir : gmap string string -> string;
  osp_join : string -> string -> string -> string;
  world : Type;
  read_config : world -> string -> result ConfigParser;
  time_passes : world -> Q -> world
}.

Section Client.

Context `{P : Platform}.

(** Python values that travel through the proxy. *)
Inductive pyval : Type :=
| PNone
| PBool (b : bool)
| PInt (n : Z)
| PStr (s : string)
| PList (l : list pyval)
| PBinary (b : Binary)
| PArray (a : Npy.ndarray)
| PDataSet (d : DataSet)
| PItem (i : PlotItem).

(** What the server answers to one XML-RPC request, and the world after
    it. *)
Class Server : Type := {
  xmlrpc_call :
    world -> string -> string -> list pyval -> result pyval * world
}.

Context `{Srv : Server}.

Inductive event : Type :=
| EvEnter (fn : string)       (* ghost: a client function is entered *)
| EvGetEnv (name : string)    (* [os.environ.get(name)] *)
| EvReadIni (fname : string)  (* [ini.read(fname)] *)
| EvRpc (uri method : string) (args : list pyval)
                              (* [self._cdl.method(args...)] *)
| EvSleep (secs : Q)          (* [time.sleep(secs)] *)
| EvPrint (text : string).    (* [execenv.print(text)] *)

(** The process: [os.environ], the two attributes of the proxy object,
    the world and the trace so far. *)
Record pstate : Type := mkState {
  environ : gmap string string;
  self_port : option port_t;       (* [self.port] *)
  self_cdl : option ServerProxy;   (* [self._cdl] *)
  the_world : world;
  trace : list event
}.

Definition M (A : Type) : Type := pstate -> result A * pstate.

Definition ret {A} (a : A) : M A := fun s => (Ok a, s).

Definition bind {A B} (c : M A) (k : A -> M B) : M B :=
  fun s =>
    match c s with
    | (Ok a, s') => k a s'
    | (Raise e, s') => (Raise e, s')
    end.

Definition raise {A} (e : exn) : M A := fun s => (Raise e, s).

(** [try: body except <handles>: handler]. A handler that returns [None]
    does not match the exception. *)
Definition try_except {A} (body : M A) (handler : exn -> option (M A))
  : M A :=
  fun s =>
    match body s with
    | (Ok a, s') => (Ok a, s')
    | (Raise e, s') =>
        match handler e with
        | Some h => h s'
        | None => (Raise e, s')
        end
    end.

Definition log (ev : event) : M unit :=
  fun s => (Ok tt, mkState (environ s) (self_port s) (self_cdl s) (the_world s)
                     (trace s ++ [ev])).

Definition set_port (p : option port_t) : M unit :=
  fun s => (Ok tt, mkState (environ s) p (self_cdl s) (the_world s) (trace s)).

Definition set_cdl (c : option ServerProxy) : M unit :=
  fun s => (Ok tt, mkState (environ s) (self_port s) c (the_world s) (trace s)).

Definition set_world (w : world) : M unit :=
  fun s => (Ok tt, mkState (environ s) (self_port s) (self_cdl s) w (trace s)).

Definition set_environ (e : gmap string string) : M unit :=
  fun s => (Ok tt, mkState e (self_port s) (self_cdl s) (the_world s) (trace s)).

Definition get_state : M pstate := fun s => (Ok s, s).

Definition lift {A} (r : result A) : M A := fun s => (r, s).

End Client.

Declare Scope py_scope.
Delimit Scope py_scope with py.
Notation "x <- c ;; k" := (bind c (fun x => k))
  (at level 100, c at next level, right associativity) : py_scope.
Notation "c ;; k" := (bind c (fun _ => k))
  (at level 100, right associativity) : py_scope.

Local Open Scope py_scope.

Section RemoteClient.

Context `{P : Platform} `{Srv : !Server}.

(** *** Module-level functions of [remote.py] *)

Definition XMLRPCPORT_ENV : string := "CDL_XMLRPCPORT".

Definition environ_get (name : string) : M (option string) :=
  s <- get_state ;;
  log (EvGetEnv name) ;;
  ret (environ s !! name).

Definition get_xmlrpcport_from_env : M (option Z) :=
  try_except
    (v <- environ_get XMLRPCPORT_ENV ;;
     n <- lift (py_int v) ;;
     ret (Some n))
    (fun e =>
       match e with
       | TypeError _ | ValueError _ => Some (ret None)
       | _ => None
       end).

Definition dataset_to_json (param : DataSet) : result pyval :=
  match serialize_json param with
  | Ok param_json =>
      Ok (PList [PStr (klass_module param); PStr (klass_name param);
                 PStr param_json])
  | Raise e => Raise e
  end.

Definition get_cdl_xmlrpc_port : M string :=
  s <- get_state ;;
  (if String.eqb sys_platform "win32"
      && bool_decide (is_Some (environ s !! "HOME"))
   then set_environ (delete "HOME" (environ s))
   else ret tt) ;;
  s <- get_state ;;
  let fname :=
    osp_join (get_config_basedir (environ s)) ".DataLab" "DataLab.ini" in
  log (EvReadIni fname) ;;
  ini <- lift (read_config (the_world s) fname) ;;
  try_except
    (lift (cp_get ini "main" "rpc_server_port"))
    (fun e =>
       match e with
       | NoSectionError _ | NoOptionError _ _ =>
           Some (raise (CDLConnectionError
                          "DataLab has not yet been executed"))
       | _ => None
       end).

Definition items_to_json (items : list PlotItem) : M (option string) :=
  if plotpy_installed then
    match items with
    | [] => ret None
    | _ :: _ => j <- lift (save_items_json items) ;; ret (Some j)
    end
  else raise (ImportError "No module named 'plotpy'").

(** *** The server proxy held in [self._cdl] *)

(** One XML-RPC request through the server proxy [sp]. *)
Definition request (sp : ServerProxy) (method : string) (args : list pyval)
  : M pyval :=
  s <- get_state ;;
  log (EvRpc (sp_uri sp) method args) ;;
  let '(r, w) := xmlrpc_call (the_world s) (sp_uri sp) method args in
  set_world w ;;
  lift r.

(** [self._cdl.<method>]: the remote method, ready to be called. Without a
    server proxy ([self._cdl] is [None]) the attribute access fails. *)
Definition cdl_attr (method : string) : M (list pyval -> M pyval) :=
  s <- get_state ;;
  match self_cdl s with
  | None =>
      raise (AttributeError
               ("'NoneType' object has no attribute '" ++ method ++ "'"))
  | Some sp => ret (request sp method)
  end.

(** [self._cdl.<method>(<args>)] with arguments already evaluated. *)
Definition cdl_call (method : string) (args : list pyval) : M pyval :=
  remote <- cdl_attr method ;;
  remote args.

(** *** [SimpleBaseProxy] ([baseproxy.py]), the base class of the client;
    [remote.py] imports it under the name [BaseProxy]. *)

Definition get_version : M pyval :=
  cdl_call "get_version" [].

Definition close_application : M pyval :=
  cdl_call "close_application" [] ;; ret PNone.

Definition switch_to_panel (panel : pyval) : M pyval :=
  cdl_call "switch_to_panel" [panel] ;; ret PNone.

Definition reset_all : M pyval :=
  cdl_call "reset_all" [] ;; ret PNone.

Definition save_to_h5_file (filename : pyval) : M pyval :=
  cdl_call "save_to_h5_file" [filename] ;; ret PNone.

Definition open_h5_files (h5files import_all reset_all : pyval) : M pyval :=
  cdl_call "open_h5_files" [h5files; import_all; reset_all] ;; ret PNone.

Definition import_h5_file (filename reset_all : pyval) : M pyval :=
  cdl_call "import_h5_file" [filename; reset_all] ;; ret PNone.

Definition open_object (filename : pyval) : M pyval :=
  cdl_call "open_object" [filename] ;; ret PNone.

Definition get_sel_object_uuids (include_groups : pyval) : M pyval :=
  cdl_call "get_sel_object_uuids" [include_groups].

Definition select_objects (selection group_num panel : pyval) : M pyval :=
  cdl_call "select_objects" [selection; group_num; panel] ;; ret PNone.

Definition select_groups (selection panel : pyval) : M pyval :=
  cdl_call "select_groups" [selection; panel] ;; ret PNone.

Definition delete_metadata (refresh_plot : pyval) : M pyval :=
  cdl_call "delete_metadata" [refresh_plot] ;; ret PNone.

Definition get_object_titles (panel : pyval) : M pyval :=
  cdl_call "get_object_titles" [panel].

Definition get_object_uuids (panel : pyval) : M pyval :=
  cdl_call "get_object_uuids" [panel].

Definition add_label_with_title (title panel : pyval) : M pyval :=
  cdl_call "add_label_with_title" [title; panel] ;; ret PNone.

(** *** [RemoteClient] ([remote.py]) *)

Definition __connect_to_server (port : option port_t) : M unit :=
  log (EvEnter "__connect_to_server") ;;
  port <- match port with
          | Some p => ret p
          | None =>
              p <- get_xmlrpcport_from_env ;;
              match p with
              | Some n => ret (PortInt n)
              | None => p <- get_cdl_xmlrpc_port ;; ret (PortStr p)
              end
          end ;;
  set_port (Some port) ;;
  set_cdl (Some (mkServerProxy ("http://127.0.0.1:" ++ str_port port) true)) ;;
  try_except
    (get_version ;; ret tt)
    (fun e =>
       match e with
       | ConnectionRefusedError =>
           Some (raise (CDLConnectionError
                          "DataLab is currently not running"))
       | _ => None
       end).

Definition sleep (secs : Q) : M unit :=
  s <- get_state ;;
  log (EvSleep secs) ;;
  set_world (time_passes (the_world s) secs).

Definition Qlt_bool (a b : Q) : bool := negb (Qle_bool b a).

(** The [for _index in range(n)] loop of [connect]; [true] when it was
    left by [break], [false] when it ran out (the [else] clause). *)
Fixpoint connect_loop (n : nat) (port : option port_t)
    (timeout : Q) (retries : Z) : M bool :=
  match n with
  | O => ret false
  | S n' =>
      connected <-
        try_except
          (__connect_to_server port ;; ret true)
          (fun e =>
             if is_CDLConnectionError e
             then Some (sleep (timeout / inject_Z retries) ;; ret false)
             else None) ;;
      if connected : bool then ret true
      else connect_loop n' port timeout retries
  end.

Definition str_self_port (p : option port_t) : string :=
  match p with Some p => str_port p | None => "None" end.

Definition connect (port : option port_t) (timeout : option Q)
    (retries : option Z) : M unit :=
  let timeout := match timeout with None => 5%Q | Some t => t end in
  let retries := match retries with None => 10%Z | Some r => r end in
  if Qlt_bool timeout 0 then raise (ValueError "timeout must be >= 0.0")
  else if (retries <? 1)%Z then raise (ValueError "retries must be >= 1")
  else
    log (EvPrint "Connecting to DataLab XML-RPC server...") ;;
    connected <- connect_loop (Z.to_nat retries) port timeout retries ;;
    if connected : bool then
      s <- get_state ;;
      log (EvPrint ("OK (port: " ++ str_self_port (self_port s) ++ ")"))
    else
      log (EvPrint "KO") ;;
      raise (CDLConnectionError "Unable to connect to DataLab").

Definition disconnect : M unit := set_cdl None.


Definition add_signal (title : pyval) (xdata ydata : Npy.ndarray)
    (xunit yunit xlabel ylabel : pyval) : M pyval :=
  xbinary <- lift (array_to_rpcbinary xdata) ;;
  ybinary <- lift (array_to_rpcbinary ydata) ;;
  cdl_call "add_signal"
    [title; PBinary xbinary; PBinary ybinary; xunit; yunit; xlabel; ylabel].

Definition add_image (title : pyval) (data : Npy.ndarray)
    (xunit yunit zunit xlabel ylabel zlabel : pyval) : M pyval :=
  zbinary <- lift (array_to_rpcbinary data) ;;
  cdl_call "add_image"
    [title; PBinary zbinary; xunit; yunit; zunit; xlabel; ylabel; zlabel].

Definition calc (name : string) (param : option DataSet) : M pyval :=
  match param with
  | None => cdl_call "calc" [PStr name]
  | Some param =>
      remote <- cdl_attr "calc" ;;
      param_data <- lift (dataset_to_json param) ;;
      remote [PStr name; param_data]
  end.

Definition add_annotations_from_items (items : list PlotItem)
    (refresh_plot panel : pyval) : M pyval :=
  items_json <-
    try_except (items_to_json items)
      (fun e =>
         match e with
         | ImportError _ => Some (raise (ImportError "PlotPy is not installed"))
         | _ => None
         end) ;;
  match items_json with
  | Some j =>
      cdl_call "add_annotations_from_items" [PStr j; refresh_plot; panel] ;;
      ret PNone
  | None => ret PNone
  end.

(** *** [SimpleAbstractCDLControl.__getattr__] ([baseproxy.py]) *)

(** The abstract class leaves [calc] to its subclasses; [self_calc] is
    [self.calc]. *)
Class SimpleAbstractCDLControl : Type := {
  self_calc : string -> option DataSet -> M pyval
}.

#[export] Instance RemoteClient : SimpleAbstractCDLControl :=
  {| self_calc := calc |}.

(** Python calls [__getattr__] when the ordinary lookup of [name] on the
    object has failed. The callable it returns is [compute_func]. *)
Definition __getattr__ `{SimpleAbstractCDLControl} (name : string)
  : result (option DataSet -> M pyval) :=
  let compute_func := fun param => self_calc name param in
  if String.prefix "compute_" name then Ok compute_func
  else Raise (AttributeError
                ("DataLab has no compute function '" ++ name ++ "'")).

End RemoteClient.

(** ** The forwarding methods as one family *)

Section Calls.

Context `{P : Platform} `{Srv : !Server}.

(** A call of a public control method of the proxy, with its arguments. *)
Inductive call : Type :=
| GetVersion
| CloseApplication
| SwitchToPanel (panel : pyval)
| ResetAll
| SaveToH5File (filename : pyval)
| OpenH5Files (h5files import_all reset_all : pyval)
| ImportH5File (filename reset_all : pyval)
| OpenObject (filename : pyval)
| GetSelObjectUuids (include_groups : pyval)
| SelectObjects (selection group_num panel : pyval)
| SelectGroups (selection panel : pyval)
| DeleteMetadata (refresh_plot : pyval)
| GetObjectTitles (panel : pyval)
| GetObjectUuids (panel : pyval)
| AddLabelWithTitle (title panel : pyval)
| AddSignal (title : pyval) (xdata ydata : Npy.ndarray)
    (xunit yunit xlabel ylabel : pyval)
| AddImage (title : pyval) (data : Npy.ndarray)
    (xunit yunit zunit xlabel ylabel zlabel : pyval)
| Calc (name : string) (param : option DataSet)
| AddAnnotationsFromItems (items : list PlotItem)
    (refresh_plot panel : pyval).

Definition invoke (c : call) : M pyval :=
  match c with
  | GetVersion => get_version
  | CloseApplication => close_application
  | SwitchToPanel panel => switch_to_panel panel
  | ResetAll => reset_all
  | SaveToH5File filename => save_to_h5_file filename
  | OpenH5Files h5files import_all reset_all =>
      open_h5_files h5files import_all reset_all
  | ImportH5File filename reset_all => import_h5_file filename reset_all
  | OpenObject filename => open_object filename
  | GetSelObjectUuids include_groups => get_sel_object_uuids include_groups
  | SelectObjects selection group_num panel =>
      select_objects selection group_num panel
  | SelectGroups selection panel => select_groups selection panel
  | DeleteMetadata refresh_plot => delete_metadata refresh_plot
  | GetObjectTitles panel => get_object_titles panel
  | GetObjectUuids panel => get_object_uuids panel
  | AddLabelWithTitle title panel => add_label_with_title title panel
  | AddSignal title xdata ydata xunit yunit xlabel ylabel =>
      add_signal title xdata ydata xunit yunit xlabel ylabel
  | AddImage title data xunit yunit zunit xlabel ylabel zlabel =>
      add_image title data xunit yunit zunit xlabel ylabel zlabel
  | Calc name param => calc name param
  | AddAnnotationsFromItems items refresh_plot panel =>
      add_annotations_from_items items refresh_plot panel
  end.

(** The name of the method called. *)
Definition method_name (c : call) : string :=
  match c with
  | GetVersion => "get_version"
  | CloseApplication => "close_application"
  | SwitchToPanel _ => "switch_to_panel"
  | ResetAll => "reset_all"
  | SaveToH5File _ => "save_to_h5_file"
  | OpenH5Files _ _ _ => "open_h5_files"
  | ImportH5File _ _ => "import_h5_file"
  | OpenObject _ => "open_object"
  | GetSelObjectUuids _ => "get_sel_object_uuids"
  | SelectObjects _ _ _ => "select_objects"
  | SelectGroups _ _ => "select_groups"
  | DeleteMetadata _ => "delete_metadata"
  | GetObjectTitles _ => "get_object_titles"
  | GetObjectUuids _ => "get_object_uuids"
  | AddLabelWithTitle _ _ => "add_label_with_title"
  | AddSignal _ _ _ _ _ _ _ => "add_signal"
  | AddImage _ _ _ _ _ _ _ _ => "add_image"
  | Calc _ _ => "calc"
  | AddAnnotationsFromItems _ _ _ => "add_annotations_from_items"
  end.

Definition opt_dataset (param : option DataSet) : pyval :=
  match param with Some d => PDataSet d | None => PNone end.

(** The arguments as the caller wrote them. *)
Definition call_args (c : call) : list pyval :=
  match c with
  | GetVersion | CloseApplication | ResetAll => []
  | SwitchToPanel panel => [panel]
  | SaveToH5File filename => [filename]
  | OpenH5Files h5files import_all reset_all =>
      [h5files; import_all; reset_all]
  | ImportH5File filename reset_all => [filename; reset_all]
  | OpenObject filename => [filename]
  | GetSelObjectUuids include_groups => [include_groups]
  | SelectObjects selection group_num panel => [selection; group_num; panel]
  | SelectGroups selection panel => [selection; panel]
  | DeleteMetadata refresh_plot => [refresh_plot]
  | GetObjectTitles panel => [panel]
  | GetObjectUuids panel => [panel]
  | AddLabelWithTitle title panel => [title; panel]
  | AddSignal title xdata ydata xunit yunit xlabel ylabel =>
      [title; PArray xdata; PArray ydata; xunit; yunit; xlabel; ylabel]
  | AddImage title data xunit yunit zunit xlabel ylabel zlabel =>
      [title; PArray data; xunit; yunit; zunit; xlabel; ylabel; zlabel]
  | Calc name param => [PStr name; opt_dataset param]
  | AddAnnotationsFromItems items refresh_plot panel =>
      [PList (map PItem items); refresh_plot; panel]
  end.

(** The methods whose body is [return self._cdl.<name>(...)]; the others
    call the server and return [None]. *)
Definition returns_remote_result (c : call) : bool :=
  match c with
  | GetVersion | GetSelObjectUuids _ | GetObjectTitles _
  | GetObjectUuids _ | AddSignal _ _ _ _ _ _ _ | AddImage _ _ _ _ _ _ _ _
  | Calc _ _ => true
  | _ => false
  end.

(** The methods that hand their arguments to the server as they are. *)
Definition is_plain (c : call) : bool :=
  match c with
  | AddSignal _ _ _ _ _ _ _ | AddImage _ _ _ _ _ _ _ _ | Calc _ _
  | AddAnnotationsFromItems _ _ _ => false
  | _ => true
  end.

(** The requests in a trace. *)
Definition is_rpc (ev : event) : bool :=
  match ev with EvRpc _ _ _ => true | _ => false end.

Definition rpc_calls (tr : list event) : list event := List.filter is_rpc tr.

(** What a run added to the trace. *)
Definition new_events (s s' : pstate) : list event :=
  skipn (length (trace s)) (trace s').

End Calls.

(** ** Vocabulary of the statements *)

Section Observations.

Context `{P : Platform} `{Srv : !Server}.

Definition is_attempt (ev : event) : bool :=
  match ev with
  | EvEnter fn => String.eqb fn "__connect_to_server"
  | _ => false
  end.

Definition is_sleep (ev : event) : bool :=
  match ev with EvSleep _ => true | _ => false end.

Definition is_discovery (ev : event) : bool :=
  match ev with EvGetEnv _ | EvReadIni _ => true | _ => false end.

(** The look-ups of the port in a trace. *)
Definition discovery (tr : list event) : list event :=
  List.filter is_discovery tr.

(** Number of connection attempts in a trace. *)
Definition attempts (tr : list event) : nat := length (List.filter is_attempt tr).

(** The attempts and the waits of a trace, in order. *)
Definition timeline (tr : list event) : list event :=
  List.filter (fun ev => is_attempt ev || is_sleep ev) tr.

(** Seconds asked of [time.sleep] in a trace. *)
Fixpoint total_sleep (tr : list event) : Q :=
  match tr with
  | [] => 0
  | EvSleep d :: tr' => d + total_sleep tr'
  | _ :: tr' => total_sleep tr'
  end.

(** [k] rounds of an attempt followed by a wait of [d] seconds. *)
Fixpoint rounds (k : nat) (d : Q) : list event :=
  match k with
  | O => []
  | S k' => EvEnter "__connect_to_server" :: EvSleep d :: rounds k' d
  end.

(** The state after [k] attempts in a row that each failed with a
    [CDLConnectionError] and were each followed by the wait; [None] when
    one of these attempts ended otherwise. *)
Fixpoint after_failures (k : nat) (port : option port_t) (d : Q)
    (s : pstate) : option pstate :=
  match k with
  | O => Some s
  | S k' =>
      match __connect_to_server port s with
      | (Raise (CDLConnectionError _), s1) =>
          after_failures k' port d (snd (sleep d s1))
      | _ => None
      end
  end.

(** The state in which the loop of [connect] starts. *)
Definition announced (s : pstate) : pstate :=
  snd (log (EvPrint "Connecting to DataLab XML-RPC server...") s).

(** The state once a request has been sent and answered. *)
Definition sent (s : pstate) (w : world) (uri method : string)
    (args : list pyval) : pstate :=
  mkState (environ s) (self_port s) (self_cdl s) w
    (trace s ++ [EvRpc uri method args]).

(** What a method returns from the answer [r] of the server. *)
Definition returned (c : call) (r : result pyval) : result pyval :=
  if returns_remote_result c then r
  else match r with Ok _ => Ok PNone | Raise e => Raise e end.

Definition is_ok {A} (r : result A) : bool :=
  match r with Ok _ => true | Raise _ => false end.

Definition encodable (a : Npy.ndarray) : bool :=
  is_ok (array_to_rpcbinary a).

(** Whether a call reaches the server at all. *)
Definition sends_request (c : call) : bool :=
  match c with
  | AddSignal _ xdata ydata _ _ _ _ => encodable xdata && encodable ydata
  | AddImage _ data _ _ _ _ _ _ => encodable data
  | Calc _ (Some param) => is_ok (serialize_json param)
  | AddAnnotationsFromItems items _ _ =>
      plotpy_installed
      && match items with
         | [] => false
         | _ :: _ => is_ok (save_items_json items)
         end
  | _ => true
  end.

(** The environment [get_cdl_xmlrpc_port] computes the settings directory
    from. *)
Definition environ_for_config (env : gmap string string)
  : gmap string string :=
  if String.eqb sys_platform "win32" && bool_decide (is_Some (env !! "HOME"))
  then delete "HOME" env else env.

Definition config_fname (env : gmap string string) : string :=
  osp_join (get_config_basedir (environ_for_config env))
    ".DataLab" "DataLab.ini".

End Observations.

(** ** The request a call puts on the wire *)

Section Wire.

Context `{P : Platform} `{Srv : !Server}.

(** The arguments a call sends to the server: [Ok None] when it sends
    nothing, [Raise] when preparing them fails. *)
Definition wire_args (c : call) : result (option (list pyval)) :=
  match c with
  | AddSignal title xdata ydata xunit yunit xlabel ylabel =>
      match array_to_rpcbinary xdata with
      | Raise e => Raise e
      | Ok xbinary =>
          match array_to_rpcbinary ydata with
          | Raise e => Raise e
          | Ok ybinary =>
              Ok (Some [title; PBinary xbinary; PBinary ybinary;
                        xunit; yunit; xlabel; ylabel])
          end
      end
  | AddImage title data xunit yunit zunit xlabel ylabel zlabel =>
      match array_to_rpcbinary data with
      | Raise e => Raise e
      | Ok zbinary =>
          Ok (Some [title; PBinary zbinary; xunit; yunit; zunit;
                    xlabel; ylabel; zlabel])
      end
  | Calc name None => Ok (Some [PStr name])
  | Calc name (Some param) =>
      match dataset_to_json param with
      | Raise e => Raise e
      | Ok param_data => Ok (Some [PStr name; param_data])
      end
  | AddAnnotationsFromItems items refresh_plot panel =>
      if plotpy_installed then
        match items with
        | [] => Ok None
        | _ :: _ =>
            match save_items_json items with
            | Ok items_json => Ok (Some [PStr items_json; refresh_plot; panel])
            | Raise (ImportError _) =>
                Raise (ImportError "PlotPy is not installed")
            | Raise e => Raise e
            end
        end
      else Raise (ImportError "PlotPy is not installed")
  | _ => Ok (Some (call_args c))
  end.

(** C5 read to the letter: the server is asked for the method of the same
    name with the caller's arguments, and its answer is what the method
    returns. *)
Definition forwards_unchanged (c : call) (s : pstate) : Prop :=
  exists sp, self_cdl s = Some sp /\
    let '(r, w) := xmlrpc_call (the_world s) (sp_uri sp)
                     (method_name c) (call_args c) in
    invoke c s
    = (r, sent s w (sp_uri sp) (method_name c) (call_args c)).

(** Number of requests a run sent. *)
Definition requests (s s' : pstate) : nat :=
  length (rpc_calls (new_events s s')).

End Wire.

(** ** Port discovery, as the specification words it *)

Section Discovery.

Context `{P : Platform} `{Srv : !Server}.

(** The port [connect] settles on: the one passed, else the integer in
    [CDL_XMLRPCPORT], else the [rpc_server_port] option of section [main]
    of the configuration [ini]; without that option, the error. *)
Definition discovered_port (port : option port_t)
    (env : gmap string string) (ini : result ConfigParser)
  : result port_t :=
  match port with
  | Some p => Ok p
  | None =>
      match env !! "CDL_XMLRPCPORT" ≫= int_of_str with
      | Some n => Ok (PortInt n)
      | None =>
          match ini with
          | Raise e => Raise e
          | Ok ini =>
              match cp_get ini "main" "rpc_server_port" with
              | Ok v => Ok (PortStr v)
              | Raise _ =>
                  Raise (CDLConnectionError
                           "DataLab has not yet been executed")
              end
          end
      end
  end.

(** The sources looked at on the way, in order. *)
Definition consulted (port : option port_t) (env : gmap string string)
  : list event :=
  match port with
  | Some _ => []
  | None =>
      match env !! "CDL_XMLRPCPORT" ≫= int_of_str with
      | Some _ => [EvGetEnv "CDL_XMLRPCPORT"]
      | None => [EvGetEnv "CDL_XMLRPCPORT"; EvReadIni (config_fname env)]
      end
  end.

(** [os.environ] once the port is settled. *)
Definition environ_after (port : option port_t) (env : gmap string string)
  : gmap string string :=
  match port with
  | Some _ => env
  | None =>
      match env !! "CDL_XMLRPCPORT" ≫= int_of_str with
      | Some _ => env
      | None => environ_for_config env
      end
  end.

Definition server_uri (p : port_t) : string :=
  "http://127.0.0.1:" ++ str_port p.

(** What an attempt makes of the answer to its [get_version] request. *)
Definition probe_result (r : result pyval) : result unit :=
  match r with
  | Ok _ => Ok tt
  | Raise ConnectionRefusedError =>
      Raise (CDLConnectionError "DataLab is currently not running")
  | Raise e => Raise e
  end.

End Discovery.

(** ** A small machine to run the client on *)

Definition demo_ini : ConfigParser :=
  mkConfigParser {[ "main" := {[ "rpc_server_port" := "8000" ]} ]} ∅.

(** The world is the number of requests the server still refuses, and
    whether DataLab has already written its configuration file. *)
#[export] Instance demo_platform : Platform := {|
  DataSet := string * string * string;
  klass_module := fun d => fst (fst d);
  klass_name := fun d => snd (fst d);
  serialize_json := fun d => Ok (snd d);
  PlotItem := string;
  save_items_json := fun items => Ok (String.concat "," items);
  plotpy_installed := true;
  sys_platform := "linux";
  get_config_basedir := fun env => default "/root" (env !! "HOME");
  osp_join := fun a b c => (a ++ "/" ++ b ++ "/" ++ c)%string;
  world := nat * bool;
  read_config := fun w _ =>
    Ok (if snd w then demo_ini else mkConfigParser ∅ ∅);
  time_passes := fun w _ => w
|}.

#[export] Instance demo_server : Server := {|
  xmlrpc_call := fun w uri method args =>
    match fst w with
    | O => (Ok (PStr "1.0.0"), w)
    | S n => (Raise ConnectionRefusedError, (n, snd w))
    end
|}.

Definition demo_state (refusals : nat) (executed : bool) : pstate :=
  mkState ∅ None None (refusals, executed) [].

Definition demo_connected : pstate :=
  mkState ∅ (Some (PortStr "8000"))
    (Some (mkServerProxy "http://127.0.0.1:8000" true)) (O, true) [].

Definition demo_dataset : DataSet :=
  ("cdl.param", "GaussianParam", "{sigma: 1.0}").

Definition demo_items : list PlotItem := ["marker"].


(** ** The rest of the two modules *)

Section MoreOfTheClient.

Context `{P : Platform} `{Srv : !Server}.

(** [SimpleBaseProxy.__init__(cdlclient)]. *)
Definition SimpleBaseProxy__init__ (cdlclient : option ServerProxy)
  : M unit :=
  set_cdl cdlclient.

(** [RemoteClient.__init__()]: the base initialiser without a client, then
    [self.port = None]. *)
Definition RemoteClient__init__ : M unit :=
  SimpleBaseProxy__init__ None ;;
  set_port None.

(** [SimpleAbstractCDLControl.get_public_methods], on the names that
    [dir(cls)] lists. *)
Definition get_public_methods (dir_cls : list string) : list string :=
  List.filter
    (fun method =>
       negb (String.prefix "_" method)
       && negb (String.eqb method "get_public_methods"))
    dir_cls.

(** The error of an attribute access on [None]. *)
Definition no_attribute (method : string) : exn :=
  AttributeError ("'NoneType' object has no attribute '" ++ method ++ "'").

Definition is_getenv (ev : event) : bool :=
  match ev with EvGetEnv _ => true | _ => false end.

(** Number of times the environment was read in a trace. *)
Definition env_reads (tr : list event) : nat :=
  length (List.filter is_getenv tr).

Definition is_get_version (ev : event) : bool :=
  match ev with
  | EvRpc _ method [] => String.eqb method "get_version"
  | _ => false
  end.

(** The look-ups [connect] makes: none with a port given, one reading of
    the environment per attempt otherwise. *)
Definition lookups_match (port : option port_t) (evs : list event) : Prop :=
  match port with
  | Some _ => discovery evs = []
  | None => env_reads evs = attempts evs
  end.

(** The requests [connect] makes: [get_version()] and nothing else, at
    most one per attempt. *)
Definition probes_only (evs : list event) : Prop :=
  Forall (fun ev => is_get_version ev = true) (rpc_calls evs) /\
  (length (rpc_calls evs) <= attempts evs)%nat.

End MoreOfTheClient.

(** guidata on the reading side: importing a class by module and name,
    building an instance without arguments, filling it from JSON text. *)
Class Importer `{P : Platform} : Type := {
  Klass : Type;
  import_class : string -> string -> result Klass;
                 (* [importlib.__import__(module, fromlist=[name])] then
                    [getattr(mod, name)] *)
  new_instance : Klass -> result DataSet;          (* [klass()] *)
  deserialize_json : DataSet -> string -> result DataSet
                 (* [JSONReader(text)] then [param.deserialize(reader)] *)
}.

Section JsonToDataset.

Context `{P : Platform} `{Imp : !Importer}.

(** The [ValueError] of unpacking [n] values into three names. *)
Definition unpack3_error (n : nat) : exn :=
  if (n <? 3)%nat then
    ValueError ("not enough values to unpack (expected 3, got "
                ++ repr_N (N.of_nat n) ++ ")")
  else ValueError "too many values to unpack (expected 3)".

Definition json_to_dataset (param_data : list string) : result DataSet :=
  match param_data with
  | [param_module; param_clsname; param_json] =>
      match import_class param_module param_clsname with
      | Raise e => Raise e
      | Ok klass =>
          match new_instance klass with
          | Raise e => Raise e
          | Ok param => deserialize_json param param_json
          end
      end
  | _ => Raise (unpack3_error (length param_data))
  end.

End JsonToDataset.


(** A server that answers every request with a protocol error. *)
Definition broken_server : @Server demo_platform := {|
  xmlrpc_call := fun w uri method args =>
    (Raise (OtherError "ProtocolError"), w)
|}.

(** The same machine without PlotPy. *)
Definition bare_platform : Platform := {|
  DataSet := string * string * string;
  klass_module := fun d => fst (fst d);
  klass_name := fun d => snd (fst d);
  serialize_json := fun d => Ok (snd d);
  PlotItem := string;
  save_items_json := fun items => Ok (String.concat "," items);
  plotpy_installed := false;
  sys_platform := "win32";
  get_config_basedir := fun env => default "C:/Users/me" (env !! "HOME");
  osp_join := fun a b c => (a ++ "/" ++ b ++ "/" ++ c)%string;
  world := nat * bool;
  read_config := fun w _ =>
    Ok (if snd w then demo_ini else mkConfigParser ∅ ∅);
  time_passes := fun w _ => w
|}.

Definition bare_server : @Server bare_platform := {|
  xmlrpc_call := fun w uri method args => (Ok PNone, w)
|}.

Definition bare_state : @pstate bare_platform :=
  @mkState bare_platform {[ "HOME" := "C:/old"; "PATH" := "C:/bin" ]}
    None None (O, true) [].

(** A guidata that finds every class and reads any text. *)
#[export] Instance demo_importer : @Importer demo_platform := {|
  Klass := string * string;
  import_class := fun param_module param_clsname =>
    Ok (param_module, param_clsname);
  new_instance := fun klass => Ok (fst klass, snd klass, "{}");
  deserialize_json := fun param param_json => Ok (fst param, param_json)
|}.

(** ** The model at work *)

Example header_dict_demo :
  Npy.header_dict demo_array
  = "{'descr': '<u2', 'fortran_order': False, 'shape': (2, 3), }".
Proof. reflexivity. Qed.

Example save_demo_size :
  match Npy.save demo_array with
  | Ok bs => length bs = (128 + 12)%nat /\ firstn 10 bs
             = [x93; x4e; x55; x4d; x50; x59; x01; x00; x76; x00]
  | Raise _ => False
  end.
Proof. split; reflexivity. Qed.

Example repr_shape_demo :
  (Npy.repr_shape [], Npy.repr_shape [3%N], Npy.repr_shape [3%N; 40%N])
  = ("()", "(3,)", "(3, 40)").
Proof. reflexivity. Qed.

Example int_of_str_demo :
  (int_of_str "8000", int_of_str " +1_000 ", int_of_str "-5",
   int_of_str "007", int_of_str "12a", int_of_str "", int_of_str "1__0")
  = (Some 8000%Z, Some 1000%Z, Some (-5)%Z, Some 7%Z, None, None, None).
Proof. reflexivity. Qed.

Example connect_demo :
  let run := connect None None None (demo_state 1 true) in
  fst run = Ok tt /\
  trace (snd run)
  = [EvPrint "Connecting to DataLab XML-RPC server...";
     EvEnter "__connect_to_server"; EvGetEnv "CDL_XMLRPCPORT";
     EvReadIni "/root/.DataLab/DataLab.ini";
     EvRpc "http://127.0.0.1:8000" "get_version" [];
     EvSleep (5 / inject_Z 10);
     EvEnter "__connect_to_server"; EvGetEnv "CDL_XMLRPCPORT";
     EvReadIni "/root/.DataLab/DataLab.ini";
     EvRpc "http://127.0.0.1:8000" "get_version" [];
     EvPrint "OK (port: 8000)"].
Proof. split; vm_compute; reflexivity. Qed.

(** Before DataLab has ever run there is no configuration file: every
    attempt fails in the port lookup, and [connect] gives up without a
    single request. *)
Example connect_never_executed :
  let run := connect None (Some 1%Q) (Some 2%Z) (demo_state 0 false) in
  fst run = Raise (CDLConnectionError "Unable to connect to DataLab") /\
  requests (demo_state 0 false) (snd run) = 0%nat /\
  attempts (trace (snd run)) = 2%nat.
Proof. split_and!; vm_compute; reflexivity. Qed.

(** ** Facts on strings and decimal text *)

#[local] Arguments String.append !_ _ / : simpl nomatch.

Section Strings.

Lemma string_app_assoc (a b c : string) :
  ((a ++ b) ++ c = a ++ (b ++ c))%string.
Proof. induction a as [|x a IH]; cbn; [reflexivity | now f_equal]. Qed.

Lemma string_length_app (a b : string) :
  String.length (a ++ b) = (String.length a + String.length b)%nat.
Proof. induction a as [|x a IH]; cbn; [reflexivity | now f_equal]. Qed.

Lemma strip_prefix_app (p s : string) : strip_prefix p (p ++ s) = Some s.
Proof.
  induction p as [|a p IH]; simpl; [reflexivity|].
  now rewrite Ascii.eqb_refl.
Qed.

Lemma digit_of_N_is_digit (d : N) : (d < 10)%N -> is_digit (digit_of_N d) = true.
Proof.
  intros Hd. unfold is_digit, digit_of_N.
  rewrite N_ascii_embedding by lia.
  apply andb_true_intro; split; apply N.leb_le; lia.
Qed.

Lemma N_of_digit_of_N (d : N) : (d < 10)%N -> N_of_digit (digit_of_N d) = d.
Proof.
  intros Hd. unfold N_of_digit, digit_of_N.
  rewrite N_ascii_embedding by lia. lia.
Qed.

(** Reading back the digits written by [repr_digits], given enough fuel. *)
Lemma parse_repr_digits (fuel : nat) :
  forall (n : N) (acc rest : string),
    (n < 2 ^ N.of_nat fuel)%N ->
    parse_digits (repr_digits fuel n acc ++ rest) 0
    = parse_digits (acc ++ rest) n.
Proof.
  induction fuel as [|fuel IH]; intros n acc rest Hn.
  - simpl in Hn. assert (n = 0%N) by lia. subst. reflexivity.
  - cbn [repr_digits]. cbv zeta.
    assert (Hmod : (n mod 10 < 10)%N) by (apply N.mod_lt; lia).
    destruct (N.ltb_spec n 10) as [Hlt|Hge].
    + simpl. rewrite digit_of_N_is_digit by assumption.
      rewrite N_of_digit_of_N by assumption.
      rewrite N.mod_small by assumption. reflexivity.
    + rewrite IH.
      * simpl. rewrite digit_of_N_is_digit by assumption.
        rewrite N_of_digit_of_N by assumption.
        f_equal. rewrite (N.div_mod n 10) at 3 by lia. reflexivity.
      * rewrite Nat2N.inj_succ, N.pow_succ_r' in Hn.
        apply N.Div0.div_lt_upper_bound. lia.
Qed.

Lemma repr_N_fuel (n : N) : (n < 2 ^ N.of_nat (S (N.to_nat (N.log2 n))))%N.
Proof.
  rewrite Nat2N.inj_succ, N2Nat.id.
  destruct n as [|p]; [reflexivity|].
  apply N.log2_spec. lia.
Qed.

Lemma parse_digits_not_digit (s : string) (acc : N) :
  starts_with_digit s = false -> parse_digits s acc = (acc, s).
Proof. destruct s as [|c s]; simpl; intros H; [reflexivity | now rewrite H]. Qed.

Lemma parse_digits_repr_N (n : N) (rest : string) :
  starts_with_digit rest = false ->
  parse_digits (repr_N n ++ rest) 0 = (n, rest).
Proof.
  intros H. unfold repr_N.
  rewrite parse_repr_digits by apply repr_N_fuel.
  simpl. now apply parse_digits_not_digit.
Qed.

Lemma repr_digits_starts (fuel : nat) :
  forall (n : N) (acc rest : string),
    starts_with_digit (acc ++ rest) = true ->
    starts_with_digit (repr_digits fuel n acc ++ rest) = true.
Proof.
  induction fuel as [|fuel IH]; intros n acc rest H; simpl; [assumption|].
  assert (Hmod : (n mod 10 < 10)%N) by (apply N.mod_lt; lia).
  destruct (n <? 10)%N.
  - simpl. now apply digit_of_N_is_digit.
  - apply IH. simpl. now apply digit_of_N_is_digit.
Qed.

Lemma repr_N_starts_with_digit (n : N) (rest : string) :
  starts_with_digit (repr_N n ++ rest) = true.
Proof.
  unfold repr_N. cbn [repr_digits]. cbv zeta.
  assert (Hmod : (n mod 10 < 10)%N) by (apply N.mod_lt; lia).
  destruct (n <? 10)%N.
  - simpl. now apply digit_of_N_is_digit.
  - apply repr_digits_starts. simpl. now apply digit_of_N_is_digit.
Qed.

(** A number below [10^k] is written on at most [k] digits. *)
Lemma repr_digits_length (fuel : nat) :
  forall (k : nat) (n : N) (acc : string),
    (n < 10 ^ N.of_nat (S k))%N ->
    (String.length (repr_digits fuel n acc) <= S k + String.length acc)%nat.
Proof.
  induction fuel as [|fuel IH]; intros k n acc Hn; simpl; [lia|].
  destruct (N.ltb_spec n 10) as [Hlt|Hge]; simpl; [lia|].
  destruct k as [|k].
  - simpl in Hn. lia.
  - etransitivity; [apply (IH k)|simpl; lia].
    rewrite Nat2N.inj_succ, N.pow_succ_r' in Hn.
    apply N.Div0.div_lt_upper_bound. lia.
Qed.

Lemma repr_N_length (k : nat) (n : N) :
  (n < 10 ^ N.of_nat (S k))%N -> (String.length (repr_N n) <= S k)%nat.
Proof.
  intros H. unfold repr_N.
  etransitivity; [apply (repr_digits_length _ k); assumption|simpl; lia].
Qed.

Lemma repr_N_nonempty (n : N) : (1 <= String.length (repr_N n))%nat.
Proof.
  pose proof (repr_N_starts_with_digit n "") as H.
  destruct (repr_N n ++ "")%string eqn:E; [discriminate|].
  assert (String.length (repr_N n ++ "") = String.length (String a s)) by now rewrite E.
  rewrite string_length_app in H0. simpl in H0. lia.
Qed.

End Strings.

(** ** Facts on the NPY format *)

Section NpyFacts.

Import Npy.

Lemma parse_order_char (o : byteorder) : parse_order (order_char o) = Some o.
Proof. destruct o; reflexivity. Qed.

Lemma parse_kind_char (k : kind) : parse_kind (kind_char k) = Some k.
Proof. destruct k; reflexivity. Qed.

Lemma parse_number_repr_N (n : N) (rest : string) :
  starts_with_digit rest = false ->
  parse_number (repr_N n ++ rest) = Some (n, rest).
Proof.
  intros H. unfold parse_number.
  rewrite repr_N_starts_with_digit. now rewrite parse_digits_repr_N.
Qed.

Lemma parse_descr_dtype_str (d : dtype) (rest : string) :
  hasobject d = false ->
  starts_with_digit rest = false ->
  parse_descr (dtype_str d ++ rest) = Some (d, rest).
Proof.
  destruct d as [o k n]. unfold hasobject, dtype_str. cbn [dt_kind dt_order dt_num].
  intros Hk Hrest.
  cbn [String.append parse_descr].
  rewrite parse_order_char, parse_kind_char.
  destruct k; try discriminate; now rewrite parse_number_repr_N.
Qed.

Lemma parse_bool_repr (b : bool) (rest : string) :
  parse_bool (repr_bool b ++ rest) = Some (b, rest).
Proof. destruct b; reflexivity. Qed.

Lemma repr_items_cons (n m : N) (l : list N) :
  repr_items (n :: m :: l) = (repr_N n ++ ", " ++ repr_items (m :: l))%string.
Proof. reflexivity. Qed.

Lemma strip_close_before_comma (x : string) :
  strip_prefix ")" (", " ++ x) = None /\ strip_prefix ",)" (", " ++ x) = None.
Proof. split; reflexivity. Qed.

Lemma parse_items_repr (l : list N) :
  forall (n : N) (fuel : nat) (rest : string),
    (length l < fuel)%nat ->
    parse_items fuel (repr_items (n :: l) ++ ")" ++ rest) = Some (n :: l, rest).
Proof.
  induction l as [|m l IH]; intros n fuel rest Hfuel;
    (destruct fuel as [|fuel]; [simpl in Hfuel; lia|]).
  - cbn [repr_items parse_items].
    rewrite parse_number_repr_N by reflexivity.
    now rewrite strip_prefix_app.
  - rewrite repr_items_cons. cbn [parse_items].
    rewrite !string_app_assoc.
    rewrite parse_number_repr_N by reflexivity.
    destruct (strip_close_before_comma (repr_items (m :: l) ++ ")" ++ rest))
      as [-> ->].
    rewrite strip_prefix_app.
    rewrite IH by (simpl in Hfuel; lia). reflexivity.
Qed.

Lemma repr_items_length (l : list N) (n : N) (rest : string) :
  (length l < String.length (repr_items (n :: l) ++ rest))%nat.
Proof.
  revert n. induction l as [|m l IH]; intros n.
  - cbn [repr_items]. rewrite string_length_app.
    pose proof (repr_N_nonempty n). simpl. lia.
  - rewrite repr_items_cons, !string_app_assoc, string_length_app.
    pose proof (repr_N_nonempty n).
    specialize (IH m). rewrite string_length_app.
    cbn [String.length length]. lia.
Qed.

Lemma strip_close_digit (s : string) :
  starts_with_digit s = true -> strip_prefix ")" s = None.
Proof.
  destruct s as [|c s]; [discriminate|]. cbn [starts_with_digit strip_prefix].
  intros Hd. destruct (Ascii.eqb_spec ")" c) as [<-|]; [discriminate | reflexivity].
Qed.

Lemma parse_items_single (n : N) (fuel : nat) (rest : string) :
  parse_items (S fuel) (repr_N n ++ ",)" ++ rest) = Some ([n], rest).
Proof.
  cbn [parse_items]. rewrite parse_number_repr_N by reflexivity.
  reflexivity.
Qed.

Lemma parse_shape_repr (l : list N) (rest : string) :
  parse_shape (repr_shape l ++ rest) = Some (l, rest).
Proof.
  unfold parse_shape. destruct l as [|n [|m l]].
  - reflexivity.
  - cbn [repr_shape]. rewrite !string_app_assoc, strip_prefix_app.
    rewrite strip_close_digit by apply repr_N_starts_with_digit.
    pose proof (repr_N_nonempty n) as Hlen.
    rewrite string_length_app.
    destruct (String.length (repr_N n)) as [|k]; [lia|].
    cbn [Nat.add]. apply parse_items_single.
  - cbn [repr_shape]. rewrite !string_app_assoc, strip_prefix_app.
    rewrite strip_close_digit.
    + apply parse_items_repr, repr_items_length.
    + rewrite repr_items_cons, !string_app_assoc.
      apply repr_N_starts_with_digit.
Qed.

Lemma is_padding_spaces (k : nat) :
  is_padding (spaces k ++ String newline "") = true.
Proof. induction k as [|k IH]; [reflexivity | exact IH]. Qed.

(** The header dictionary, padded, reads back as the three fields. *)
Lemma parse_header_dict (a : ndarray) (k : nat) :
  hasobject (a_dtype a) = false ->
  parse_header (header_dict a ++ spaces k ++ String newline "")
  = Some (a_dtype a, a_fortran a, a_shape a).
Proof.
  intros Hobj. unfold parse_header, header_dict.
  rewrite !string_app_assoc.
  rewrite strip_prefix_app.
  rewrite parse_descr_dtype_str by (assumption || reflexivity).
  rewrite strip_prefix_app, parse_bool_repr, strip_prefix_app.
  rewrite parse_shape_repr, strip_prefix_app, is_padding_spaces.
  reflexivity.
Qed.

End NpyFacts.

Section NpyBytes.

Import Npy.

Lemma to_N_byte_of_N (n : N) : (n < 256)%N -> Byte.to_N (byte_of_N n) = n.
Proof.
  intros Hn. unfold byte_of_N.
  destruct (Byte.of_N n) as [b|] eqn:E.
  - now apply Byte.to_of_N.
  - apply Byte.of_N_None_iff in E. lia.
Qed.

Lemma unpack_pack_le (w : nat) :
  forall n : N, (n < 256 ^ N.of_nat w)%N -> unpack_le (pack_le w n) = n.
Proof.
  induction w as [|w IH]; intros n Hn.
  - simpl in *. lia.
  - cbn [pack_le unpack_le].
    rewrite to_N_byte_of_N by (apply N.mod_lt; lia).
    rewrite IH.
    + rewrite (N.div_mod n 256) at 3 by lia. lia.
    + rewrite Nat2N.inj_succ, N.pow_succ_r' in Hn.
      apply N.Div0.div_lt_upper_bound. lia.
Qed.

Lemma pack_le_length (w : nat) (n : N) : length (pack_le w n) = w.
Proof. revert n. induction w as [|w IH]; intros n; simpl; [|rewrite IH]; reflexivity. Qed.

Lemma read_bytes_app (x y : list byte) :
  read_bytes (length x) (x ++ y) = Some (x, y).
Proof.
  unfold read_bytes.
  rewrite List.length_app.
  destruct (Nat.leb_spec (length x) (length x + length y)) as [_|H]; [|lia].
  rewrite List.firstn_app, Nat.sub_diag, List.firstn_all. simpl.
  rewrite List.app_nil_r.
  rewrite List.skipn_app, Nat.sub_diag, List.skipn_all. reflexivity.
Qed.

Lemma read_bytes_all (x : list byte) : read_bytes (length x) x = Some (x, []).
Proof.
  rewrite <- (List.app_nil_r x) at 2. apply read_bytes_app.
Qed.

Lemma list_byte_of_string_length (s : string) :
  length (list_byte_of_string s) = String.length s.
Proof.
  induction s as [|c s IH]; [reflexivity|].
  change (list_byte_of_string (String c s))
    with (byte_of_ascii c :: list_byte_of_string s).
  simpl. now rewrite IH.
Qed.

Lemma spaces_length (k : nat) : String.length (spaces k) = k.
Proof. induction k as [|k IH]; simpl; [|rewrite IH]; reflexivity. Qed.

(** *** The header of a well-formed array is short *)

Lemma repr_items_bound (l : list N) :
  Forall (fun d => (d < 2 ^ 63)%N) l ->
  (String.length (repr_items l) <= 21 * length l)%nat.
Proof.
  induction 1 as [|n l Hn Hl IH]; [simpl; lia|].
  assert (Hlen : (String.length (repr_N n) <= 19)%nat).
  { apply (repr_N_length 18).
    eapply N.lt_trans; [exact Hn|]. now vm_compute. }
  destruct l as [|m l].
  - cbn [repr_items length]. lia.
  - rewrite repr_items_cons, !string_length_app.
    cbn [String.length length] in *. lia.
Qed.

Lemma repr_shape_bound (l : list N) :
  Forall (fun d => (d < 2 ^ 63)%N) l ->
  (String.length (repr_shape l) <= 3 + 21 * length l)%nat.
Proof.
  intros H. pose proof (repr_items_bound l H) as Hi.
  destruct l as [|n [|m l]].
  - simpl. lia.
  - cbn [repr_shape repr_items] in *. rewrite !string_length_app.
    cbn [String.length length] in *. lia.
  - cbn [repr_shape]. rewrite !string_length_app.
    cbn [String.length] in *. lia.
Qed.

Lemma dtype_str_bound (d : dtype) :
  (dt_num d < 2 ^ 31)%N -> (String.length (dtype_str d) <= 12)%nat.
Proof.
  intros Hn. unfold dtype_str. cbn [String.length].
  assert (Hlen : (String.length (repr_N (dt_num d)) <= 10)%nat).
  { apply (repr_N_length 9).
    eapply N.lt_trans; [exact Hn|]. now vm_compute. }
  destruct (dt_kind d); simpl; lia.
Qed.

Lemma header_dict_bound (a : ndarray) :
  wf_ndarray a -> (String.length (header_dict a) <= 1409)%nat.
Proof.
  intros (Hdims & Hshape & Hnum & _). unfold header_dict.
  rewrite !string_length_app.
  pose proof (dtype_str_bound _ Hnum).
  pose proof (repr_shape_bound _ Hshape).
  assert (String.length (repr_bool (a_fortran a)) <= 5)%nat
    by (destruct (a_fortran a); simpl; lia).
  unfold NPY_MAXDIMS in Hdims. cbn [String.length]. lia.
Qed.

End NpyBytes.

Section NpyRoundTrip.

Import Npy.

(** Reading a version 1.0 file whose header text is [h] and whose data
    are exactly the array's. *)
Lemma load_v1 (a : ndarray) (h : string) :
  (N.of_nat (String.length h) < 256 ^ 2)%N ->
  parse_header h = Some (a_dtype a, a_fortran a, a_shape a) ->
  hasobject (a_dtype a) = false ->
  N.of_nat (length (a_data a)) = nbytes a ->
  load (MAGIC_PREFIX ++ [byte_of_N 1; x00] ++
        pack_le 2 (N.of_nat (String.length h)) ++
        list_byte_of_string h ++ a_data a) = Ok a.
Proof.
  intros Hlen Hparse Hobj Hdata. unfold load.
  change (strip_bytes MAGIC_PREFIX
            (MAGIC_PREFIX ++ [byte_of_N 1; x00] ++
             pack_le 2 (N.of_nat (String.length h)) ++
             list_byte_of_string h ++ a_data a))
    with (Some (x01 :: x00 :: (pack_le 2 (N.of_nat (String.length h)) ++
                               list_byte_of_string h ++ a_data a))).
  cbv beta iota.
  change (hlen_width x01 x00) with (Some 2%nat). cbv beta iota.
  pose proof (read_bytes_app (pack_le 2 (N.of_nat (String.length h)))
                (list_byte_of_string h ++ a_data a)) as Hread.
  rewrite pack_le_length in Hread. rewrite Hread. clear Hread.
  rewrite unpack_pack_le by exact Hlen.
  rewrite Nat2N.id, <- list_byte_of_string_length, read_bytes_app.
  rewrite string_of_list_byte_of_string, Hparse, Hobj.
  unfold nbytes in Hdata. rewrite <- Hdata, Nat2N.id, read_bytes_all.
  now destruct a.
Qed.

Lemma save_v1 (a : ndarray) :
  wf_ndarray a ->
  hasobject (a_dtype a) = false ->
  exists k : nat,
    let h := (header_dict a ++ spaces k ++ String newline "")%string in
    (N.of_nat (String.length h) < 256 ^ 2)%N /\
    save a = Ok (MAGIC_PREFIX ++ [byte_of_N 1; x00] ++
                 pack_le 2 (N.of_nat (String.length h)) ++
                 list_byte_of_string h ++ a_data a).
Proof.
  intros Hwf Hobj.
  pose proof (header_dict_bound a Hwf) as Hb.
  set (hlen := (N.of_nat (String.length (header_dict a)) + 1)%N).
  set (padlen := (ARRAY_ALIGN - ((MAGIC_LEN + N.of_nat 2 + hlen) mod ARRAY_ALIGN))%N).
  exists (N.to_nat padlen). cbv zeta.
  assert (Hpad : (padlen <= 64)%N) by (unfold padlen, ARRAY_ALIGN; apply N.le_sub_l).
  assert (Hh : N.of_nat (String.length
                 (header_dict a ++ spaces (N.to_nat padlen) ++ String newline ""))
               = (hlen + padlen)%N).
  { rewrite !string_length_app, spaces_length. cbn [String.length].
    unfold hlen. lia. }
  rewrite Hh.
  assert (Hlt : (hlen + padlen < 256 ^ 2)%N).
  { unfold hlen. change (256 ^ 2)%N with 65536%N. lia. }
  split; [exact Hlt|].
  unfold save, wrap_header_guess_version, wrap_header.
  fold hlen. fold padlen.
  change (N.of_nat 2) with 2%N in *.
  destruct (N.ltb_spec (hlen + padlen) (256 ^ 2)) as [_|Hge]; [|lia].
  rewrite Hobj. rewrite <- !List.app_assoc. reflexivity.
Qed.

Lemma load_save (a : ndarray) :
  wf_ndarray a ->
  hasobject (a_dtype a) = false ->
  exists bs, save a = Ok bs /\ load bs = Ok a.
Proof.
  intros Hwf Hobj.
  destruct (save_v1 a Hwf Hobj) as (k & Hlen & Hsave).
  eexists. split; [exact Hsave|].
  apply load_v1; try assumption.
  - now apply parse_header_dict.
  - apply Hwf.
Qed.

Lemma save_object_array (a : ndarray) :
  hasobject (a_dtype a) = true -> exists e, save a = Raise e.
Proof.
  intros Hobj. unfold save.
  destruct (wrap_header_guess_version (header_dict a)); rewrite ?Hobj; eauto.
Qed.

End NpyRoundTrip.

(** ** The array codec *)



Lemma demo_object_array_wf : Npy.wf_ndarray demo_object_array.
Proof.
  repeat split; try (unfold Npy.NPY_MAXDIMS; simpl; lia); try reflexivity.
  repeat constructor.
Qed.


(** ** The client: argument checks, port lookup, attribute lookup *)

Section ClientFacts.

Context `{P : Platform} `{Srv : !Server}.

Lemma Qlt_bool_iff (a b : Q) : Qlt_bool a b = true <-> (a < b)%Q.
Proof.
  unfold Qlt_bool. rewrite Bool.negb_true_iff.
  split.
  - intros H. apply Qnot_le_lt. intros Hle.
    apply Qle_bool_iff in Hle. congruence.
  - intros H. destruct (Qle_bool b a) eqn:E; [|reflexivity].
    apply Qle_bool_iff in E. exfalso. now apply (Qlt_not_le a b).
Qed.

Lemma Qlt_bool_false (a b : Q) : Qlt_bool a b = false <-> (b <= a)%Q.
Proof.
  unfold Qlt_bool. rewrite Bool.negb_false_iff. apply Qle_bool_iff.
Qed.

Lemma prefix_app (p s : string) :
  String.prefix p s = true <-> exists rest, s = (p ++ rest)%string.
Proof.
  revert s. induction p as [|a p IH]; intros s.
  - split; [intros _; now exists s | intros _; now destruct s].
  - destruct s as [|b s]; cbn [String.prefix].
    + split; [discriminate | intros [r Hr]; discriminate Hr].
    + destruct (ascii_dec a b) as [->|Hne].
      * rewrite IH. split; intros [r Hr]; exists r.
        -- now rewrite Hr.
        -- now injection Hr.
      * split; [discriminate | intros [r Hr]; injection Hr; congruence].
Qed.

Lemma get_xmlrpcport_from_env_run (s : pstate) :
  get_xmlrpcport_from_env s
  = (Ok (environ s !! "CDL_XMLRPCPORT" ≫= int_of_str),
     mkState (environ s) (self_port s) (self_cdl s) (the_world s)
       (trace s ++ [EvGetEnv "CDL_XMLRPCPORT"])).
Proof.
  unfold get_xmlrpcport_from_env, try_except, environ_get, bind, get_state,
    log, ret, lift, py_int, XMLRPCPORT_ENV.
  cbn [environ fst snd].
  destruct (environ s !! "CDL_XMLRPCPORT") as [v|]; cbn; [|reflexivity].
  destruct (int_of_str v); reflexivity.
Qed.

End ClientFacts.


(** C10. Looking up a name the proxy does not define succeeds exactly when
    the name starts with [compute_]: the lookup then gives a callable that,
    applied to an optional parameter, is [calc name param]; for any other
    name it raises [AttributeError]. *)
Theorem getattr_compute_functions `{P : Platform} `{Srv : !Server}
    (name : string) :
  match __getattr__ name with
  | Ok compute_func =>
      (exists rest, name = ("compute_" ++ rest)%string) /\
      (forall param, compute_func param = calc name param)
  | Raise e =>
      ~ (exists rest, name = ("compute_" ++ rest)%string) /\
      e = AttributeError
            ("DataLab has no compute function '" ++ name ++ "'")
  end.
Proof.
  unfold __getattr__.
  destruct (String.prefix "compute_" name) eqn:E.
  - split; [now apply prefix_app | reflexivity].
  - split; [|reflexivity].
    intros H. apply prefix_app in H. congruence.
Qed.

(** C8 as stated fails: with a negative timeout and no retry allowed the
    call does raise before any attempt, but the error is the one about the
    timeout, not the one about the retries. *)
Lemma connect_checks_counterexample :
  (0 < 1)%Z /\
  connect None (Some (-1)%Q) (Some 0%Z) (demo_state 2 true)
  = (Raise (ValueError "timeout must be >= 0.0"), demo_state 2 true) /\
  fst (connect None (Some (-1)%Q) (Some 0%Z) (demo_state 2 true))
  <> Raise (ValueError "retries must be >= 1").
Proof.
  split; [lia|]. split; [reflexivity|]. cbn. discriminate.
Qed.

(** C8, as amended. [connect] checks its arguments, the timeout first,
    before anything else: a negative timeout raises
    [ValueError("timeout must be >= 0.0")]; otherwise a number of retries
    below one raises [ValueError("retries must be >= 1")]. In both cases
    the state is left as it was: no attempt, no output, [self.port] and
    [self._cdl] untouched. *)
Theorem connect_checks_arguments `{P : Platform} `{Srv : !Server}
    (port : option port_t) (timeout : option Q) (retries : option Z)
    (s : pstate) :
  let t := default 5%Q timeout in
  let r := default 10%Z retries in
  ((t < 0)%Q ->
   connect port timeout retries s
   = (Raise (ValueError "timeout must be >= 0.0"), s)) /\
  ((0 <= t)%Q -> (r < 1)%Z ->
   connect port timeout retries s
   = (Raise (ValueError "retries must be >= 1"), s)).
Proof.
  cbv zeta. unfold connect.
  change (match timeout with Some t => t | None => 5%Q end)
    with (default 5%Q timeout).
  change (match retries with Some r => r | None => 10%Z end)
    with (default 10%Z retries).
  split.
  - intros Ht. apply Qlt_bool_iff in Ht. now rewrite Ht.
  - intros Ht Hr. apply Qlt_bool_false in Ht. rewrite Ht.
    apply Z.ltb_lt in Hr. now rewrite Hr.
Qed.

Lemma connect_checks_arguments_witness :
  connect None (Some (-1)%Q) None (demo_state 2 true)
  = (Raise (ValueError "timeout must be >= 0.0"), demo_state 2 true) /\
  connect None None (Some 0%Z) (demo_state 2 true)
  = (Raise (ValueError "retries must be >= 1"), demo_state 2 true).
Proof.
  split.
  - apply (connect_checks_arguments None (Some (-1)%Q) None (demo_state 2 true)).
    reflexivity.
  - apply (connect_checks_arguments None None (Some 0%Z) (demo_state 2 true)).
    + discriminate.
    + reflexivity.
Defined.

(** ** The forwarding methods *)

Section Forwarding.

Context `{P : Platform} `{Srv : !Server}.

Lemma request_run (s : pstate) (sp : ServerProxy) (method : string)
    (args : list pyval) :
  request sp method args s
  = (fst (xmlrpc_call (the_world s) (sp_uri sp) method args),
     sent s (snd (xmlrpc_call (the_world s) (sp_uri sp) method args))
       (sp_uri sp) method args).
Proof.
  unfold request, bind, get_state, log, set_world, lift, sent. cbn.
  now destruct (xmlrpc_call (the_world s) (sp_uri sp) method args).
Qed.

Lemma cdl_attr_run (s : pstate) (sp : ServerProxy) (method : string) :
  self_cdl s = Some sp -> cdl_attr method s = (Ok (request sp method), s).
Proof. intros H. unfold cdl_attr, bind, get_state. now rewrite H. Qed.

Lemma cdl_call_run (s : pstate) (sp : ServerProxy) (method : string)
    (args : list pyval) :
  self_cdl s = Some sp ->
  cdl_call method args s
  = (fst (xmlrpc_call (the_world s) (sp_uri sp) method args),
     sent s (snd (xmlrpc_call (the_world s) (sp_uri sp) method args))
       (sp_uri sp) method args).
Proof.
  intros H. unfold cdl_call, bind at 1.
  rewrite (cdl_attr_run s sp method H). apply request_run.
Qed.

Lemma cdl_call_none_run (s : pstate) (sp : ServerProxy) (method : string)
    (args : list pyval) :
  self_cdl s = Some sp ->
  (cdl_call method args ;; ret PNone) s
  = (match fst (xmlrpc_call (the_world s) (sp_uri sp) method args) with
     | Ok _ => Ok PNone
     | Raise e => Raise e
     end,
     sent s (snd (xmlrpc_call (the_world s) (sp_uri sp) method args))
       (sp_uri sp) method args).
Proof.
  intros H. unfold bind at 1. rewrite (cdl_call_run s sp) by exact H.
  now destruct (fst (xmlrpc_call (the_world s) (sp_uri sp) method args)).
Qed.

(** What a call does, once the proxy holds a server proxy. *)
Lemma invoke_run (c : call) (s : pstate) (sp : ServerProxy) :
  self_cdl s = Some sp ->
  invoke c s
  = match wire_args c with
    | Ok (Some args) =>
        (returned c (fst (xmlrpc_call (the_world s) (sp_uri sp)
                            (method_name c) args)),
         sent s (snd (xmlrpc_call (the_world s) (sp_uri sp)
                        (method_name c) args))
           (sp_uri sp) (method_name c) args)
    | Ok None => (Ok PNone, s)
    | Raise e => (Raise e, s)
    end.
Proof.
  intros H.
  destruct c; cbn [invoke wire_args method_name call_args returned
                     returns_remote_result];
    try (unfold get_version, close_application, switch_to_panel, reset_all,
           save_to_h5_file, open_h5_files, import_h5_file, open_object,
           get_sel_object_uuids, select_objects, select_groups,
           delete_metadata, get_object_titles, get_object_uuids,
           add_label_with_title;
         first [ now apply cdl_call_none_run | now apply cdl_call_run ]).
  - unfold add_signal, bind at 1, lift.
    destruct (array_to_rpcbinary xdata); [|reflexivity].
    unfold bind at 1.
    destruct (array_to_rpcbinary ydata); [|reflexivity].
    now apply cdl_call_run.
  - unfold add_image, bind at 1, lift.
    destruct (array_to_rpcbinary data0); [|reflexivity].
    now apply cdl_call_run.
  - unfold calc. destruct param as [param|]; [|now apply cdl_call_run].
    unfold bind at 1. rewrite (cdl_attr_run s sp "calc" H).
    unfold bind at 1, lift.
    destruct (dataset_to_json param); [apply request_run | reflexivity].
  - unfold add_annotations_from_items, bind at 1, try_except, items_to_json.
    destruct plotpy_installed; [|reflexivity].
    destruct items as [|item items]; [reflexivity|].
    unfold bind at 1, lift.
    destruct (save_items_json (item :: items)) as [j|e].
    + unfold ret at 1. now apply cdl_call_none_run.
    + destruct e; reflexivity.
Qed.

Lemma new_events_sent (s : pstate) (w : world) (uri method : string)
    (args : list pyval) :
  new_events s (sent s w uri method args) = [EvRpc uri method args].
Proof.
  unfold new_events, sent. cbn [trace]. apply drop_app_length.
Qed.

Lemma new_events_same (s : pstate) : new_events s s = [].
Proof. unfold new_events. apply drop_all. Qed.

End Forwarding.

(** C5 as stated fails. [calc] does not hand its parameter over as it is:
    the data set is first turned into its JSON triple. And [reset_all]
    does not return what the server answered: it returns [None]. *)
Lemma control_methods_forward_counterexample :
  ~ forwards_unchanged (Calc "compute_fft" (Some demo_dataset)) demo_connected
  /\ ~ forwards_unchanged ResetAll demo_connected.
Proof.
  split; intros (sp & Hsp & H); injection Hsp as <-; cbn in H; discriminate H.
Qed.

(** C5, as amended. With a server proxy in place, every control method
    sends one request for the remote method of its own name.
    - The plain methods pass their arguments as they are.
    - [add_signal] and [add_image] pass theirs as they are, except the
      arrays, which go through [array_to_rpcbinary].
    - [calc] passes the name and, when a parameter is given, its
      [dataset_to_json] triple: module, class name, JSON text.
    - [add_annotations_from_items] passes the JSON text of a non-empty list
      of items and its two other arguments.
    The methods written with [return] give back the answer of the server
    unchanged; the others give back [None] once the server has answered,
    and every method lets an exception of the request through. *)
Theorem control_methods_forward `{P : Platform} `{Srv : !Server}
    (s : pstate) (sp : ServerProxy) :
  self_cdl s = Some sp ->
  let outcome c args :=
    (returned c (fst (xmlrpc_call (the_world s) (sp_uri sp)
                        (method_name c) args)),
     sent s (snd (xmlrpc_call (the_world s) (sp_uri sp) (method_name c) args))
       (sp_uri sp) (method_name c) args) in
  (forall c, is_plain c = true -> invoke c s = outcome c (call_args c)) /\
  (forall title xdata ydata xunit yunit xlabel ylabel xbinary ybinary,
     array_to_rpcbinary xdata = Ok xbinary ->
     array_to_rpcbinary ydata = Ok ybinary ->
     let c := AddSignal title xdata ydata xunit yunit xlabel ylabel in
     returns_remote_result c = true /\
     invoke c s
     = outcome c [title; PBinary xbinary; PBinary ybinary;
                  xunit; yunit; xlabel; ylabel]) /\
  (forall title data xunit yunit zunit xlabel ylabel zlabel zbinary,
     array_to_rpcbinary data = Ok zbinary ->
     let c := AddImage title data xunit yunit zunit xlabel ylabel zlabel in
     returns_remote_result c = true /\
     invoke c s
     = outcome c [title; PBinary zbinary; xunit; yunit; zunit;
                  xlabel; ylabel; zlabel]) /\
  (forall name,
     invoke (Calc name None) s = outcome (Calc name None) [PStr name]) /\
  (forall name param param_data,
     dataset_to_json param = Ok param_data ->
     invoke (Calc name (Some param)) s
     = outcome (Calc name (Some param)) [PStr name; param_data]) /\
  (forall item items refresh_plot panel items_json,
     plotpy_installed = true ->
     save_items_json (item :: items) = Ok items_json ->
     let c := AddAnnotationsFromItems (item :: items) refresh_plot panel in
     invoke c s = outcome c [PStr items_json; refresh_plot; panel]).
Proof.
  intros H outcome. repeat split.
  - intros c Hc. rewrite (invoke_run c s sp H).
    destruct c; try discriminate Hc; reflexivity.
  - rewrite (invoke_run _ s sp H). cbn [wire_args].
    now rewrite H0, H1.
  - rewrite (invoke_run _ s sp H). cbn [wire_args].
    now rewrite H0.
  - intros name. now rewrite (invoke_run _ s sp H).
  - intros name param param_data Hd.
    rewrite (invoke_run _ s sp H). cbn [wire_args]. now rewrite Hd.
  - intros item items refresh_plot panel items_json Hpp Hj c.
    rewrite (invoke_run _ s sp H). unfold c. cbn [wire_args].
    now rewrite Hpp, Hj.
Qed.

Lemma control_methods_forward_witness :
  invoke (SwitchToPanel (PStr "image")) demo_connected
  = (Ok PNone,
     sent demo_connected (O, true) "http://127.0.0.1:8000" "switch_to_panel"
       [PStr "image"]) /\
  invoke (Calc "compute_fft" (Some demo_dataset)) demo_connected
  = (Ok (PStr "1.0.0"),
     sent demo_connected (O, true) "http://127.0.0.1:8000" "calc"
       [PStr "compute_fft";
        PList [PStr "cdl.param"; PStr "GaussianParam";
               PStr "{sigma: 1.0}"]]).
Proof.
  pose proof (control_methods_forward demo_connected
                (mkServerProxy "http://127.0.0.1:8000" true) eq_refl) as H.
  cbv zeta in H.
  destruct H as (Hplain & _ & _ & _ & Hcalc & _).
  split.
  - exact (Hplain (SwitchToPanel (PStr "image")) eq_refl).
  - exact (Hcalc "compute_fft" demo_dataset _ eq_refl).
Defined.

(** C7 as stated fails: for an empty list of items
    [add_annotations_from_items] sends nothing. *)
Lemma one_request_counterexample :
  let c := AddAnnotationsFromItems [] (PBool true) PNone in
  invoke c demo_connected = (Ok PNone, demo_connected) /\
  requests demo_connected (snd (invoke c demo_connected)) = 0%nat.
Proof. split; reflexivity. Qed.

(** C7, as amended. With a server proxy in place, a call of a control
    method sends at most one request, and exactly one unless it stops
    before reaching the server: [add_annotations_from_items] sends none
    for an empty list of items or without PlotPy, and a method whose
    argument cannot be encoded (an array of [add_signal] or [add_image],
    the data set of [calc], the items) raises without sending anything.
    [sends_request] tells the two cases apart. *)
Theorem one_request_per_call `{P : Platform} `{Srv : !Server}
    (c : call) (s : pstate) (sp : ServerProxy) :
  self_cdl s = Some sp ->
  requests s (snd (invoke c s)) = if sends_request c then 1%nat else 0%nat.
Proof.
  intros H. unfold requests. rewrite (invoke_run c s sp H).
  assert (Hw : match wire_args c with
               | Ok (Some _) => sends_request c = true
               | _ => sends_request c = false
               end).
  { destruct c; try reflexivity; cbn [wire_args sends_request];
      unfold encodable, is_ok.
    - destruct (array_to_rpcbinary xdata); [|reflexivity].
      destruct (array_to_rpcbinary ydata); reflexivity.
    - destruct (array_to_rpcbinary data0); reflexivity.
    - destruct param as [param|]; [|reflexivity].
      unfold dataset_to_json. destruct (serialize_json param); reflexivity.
    - destruct plotpy_installed; [|reflexivity].
      destruct items as [|item items]; [reflexivity|].
      destruct (save_items_json (item :: items)) as [j|e]; [reflexivity|].
      destruct e; reflexivity. }
  destruct (wire_args c) as [[args|]|e]; rewrite Hw; cbn [snd].
  - now rewrite new_events_sent.
  - now rewrite new_events_same.
  - now rewrite new_events_same.
Qed.

Lemma one_request_per_call_witness :
  requests demo_connected
    (snd (invoke (AddAnnotationsFromItems demo_items (PBool true) PNone)
            demo_connected)) = 1%nat.
Proof.
  apply (one_request_per_call
           (AddAnnotationsFromItems demo_items (PBool true) PNone)
           demo_connected (mkServerProxy "http://127.0.0.1:8000" true)).
  reflexivity.
Defined.

(** ** One connection attempt *)

Section Attempt.

Context `{P : Platform} `{Srv : !Server}.

Lemma cp_get_raises (ini : ConfigParser) (section option : string) (e : exn) :
  cp_get ini section option = Raise e ->
  e = NoSectionError section \/ e = NoOptionError option section.
Proof.
  unfold cp_get. intros H.
  repeat match type of H with
         | context [match ?x with _ => _ end] => destruct x
         end; inversion H; auto.
Qed.


Lemma get_cdl_xmlrpc_port_run (s : pstate) :
  get_cdl_xmlrpc_port s
  = (match read_config (the_world s) (config_fname (environ s)) with
     | Raise e => Raise e
     | Ok ini =>
         match cp_get ini "main" "rpc_server_port" with
         | Ok v => Ok v
         | Raise _ =>
             Raise (CDLConnectionError "DataLab has not yet been executed")
         end
     end,
     mkState (environ_for_config (environ s)) (self_port s) (self_cdl s)
       (the_world s) (trace s ++ [EvReadIni (config_fname (environ s))])).
Proof.
  unfold get_cdl_xmlrpc_port, config_fname, environ_for_config.
  unfold bind, get_state, set_environ, ret, log, lift, try_except, raise.
  destruct (String.eqb sys_platform "win32"
            && bool_decide (is_Some (environ s !! "HOME"))); cbn;
    (destruct (read_config _ _) as [ini|e]; [|reflexivity]);
    (destruct (cp_get ini "main" "rpc_server_port") as [v|e] eqn:E;
     [reflexivity|]);
    destruct (cp_get_raises _ _ _ _ E) as [-> | ->]; reflexivity.
Qed.

(** An attempt: settle the port, then ask the server for its version. *)
Lemma connect_to_server_run (port : option port_t) (s : pstate) :
  let ini := read_config (the_world s) (config_fname (environ s)) in
  let evs := EvEnter "__connect_to_server" :: consulted port (environ s) in
  let env := environ_after port (environ s) in
  __connect_to_server port s
  = match discovered_port port (environ s) ini with
    | Raise e =>
        (Raise e,
         mkState env (self_port s) (self_cdl s) (the_world s)
           (trace s ++ evs))
    | Ok p =>
        let sp := mkServerProxy (server_uri p) true in
        let s2 := mkState env (Some p) (Some sp) (the_world s)
                    (trace s ++ evs) in
        let rw := xmlrpc_call (the_world s) (server_uri p)
                    "get_version" [] in
        (probe_result (fst rw),
         sent s2 (snd rw) (server_uri p) "get_version" [])
    end.
Proof.
  cbv zeta. unfold __connect_to_server.
  unfold bind at 1. unfold log at 1. cbn [fst snd].
  assert (Hprobe : forall p env (evs : list event),
    (set_port (Some p);;
     set_cdl (Some (mkServerProxy ("http://127.0.0.1:" ++ str_port p) true));;
     try_except (get_version;; ret tt)
       (fun e => match e with
                 | ConnectionRefusedError =>
                     Some (raise (CDLConnectionError
                                    "DataLab is currently not running"))
                 | _ => None
                 end))
      (mkState env (self_port s) (self_cdl s) (the_world s) (trace s ++ evs))
    = (probe_result (fst (xmlrpc_call (the_world s) (server_uri p)
                            "get_version" [])),
       sent (mkState env (Some p) (Some (mkServerProxy (server_uri p) true))
               (the_world s) (trace s ++ evs))
         (snd (xmlrpc_call (the_world s) (server_uri p) "get_version" []))
         (server_uri p) "get_version" [])).
  { intros p env evs.
    unfold bind at 1. unfold set_port at 1. cbn [fst snd].
    unfold bind at 1. unfold set_cdl at 1. cbn [fst snd].
    unfold try_except, bind at 1, get_version.
    rewrite (cdl_call_run _ (mkServerProxy (server_uri p) true)) by reflexivity.
    cbn [sp_uri the_world].
    destruct (fst (xmlrpc_call (the_world s) (server_uri p) "get_version" []))
      as [v|e]; [reflexivity|].
    destruct e; reflexivity. }
  destruct port as [p|].
  - unfold bind at 1, ret at 1. cbn [discovered_port consulted environ_after].
    apply Hprobe.
  - unfold bind at 1. unfold bind at 1.
    rewrite get_xmlrpcport_from_env_run.
    cbn [environ self_port self_cdl the_world trace discovered_port
           consulted environ_after].
    destruct (environ s !! "CDL_XMLRPCPORT" ≫= int_of_str) as [n|].
    + unfold ret at 1. rewrite <- List.app_assoc. apply Hprobe.
    + unfold bind at 1. rewrite get_cdl_xmlrpc_port_run.
      cbn [environ self_port self_cdl the_world trace].
      rewrite <- !List.app_assoc. cbn [List.app].
      destruct (read_config (the_world s) (config_fname (environ s)))
        as [ini|e]; [|reflexivity].
      destruct (cp_get ini "main" "rpc_server_port") as [v|e];
        [|reflexivity].
      unfold ret at 1. apply Hprobe.
Qed.

End Attempt.

Section AttemptTrace.

Context `{P : Platform} `{Srv : !Server}.

Lemma new_events_app (s s' : pstate) (evs : list event) :
  trace s' = trace s ++ evs -> new_events s s' = evs.
Proof. intros H. unfold new_events. rewrite H. apply drop_app_length. Qed.

(** The trace an attempt leaves: its entry, the look-ups, and the request
    when the port was found. *)
Lemma connect_to_server_trace (port : option port_t) (s : pstate) :
  exists rpc : list event,
    trace (snd (__connect_to_server port s))
    = trace s ++ EvEnter "__connect_to_server"
              :: consulted port (environ s) ++ rpc /\
    discovery rpc = [] /\ timeline rpc = [] /\ total_sleep rpc = 0%Q /\
    (length (rpc_calls rpc) <= 1)%nat /\
    (forall e, discovered_port port (environ s)
                 (read_config (the_world s) (config_fname (environ s)))
               = Raise e -> rpc = []).
Proof.
  rewrite connect_to_server_run. cbv zeta.
  destruct (discovered_port port (environ s) _) as [p|e].
  - eexists [EvRpc _ _ _]. cbn [snd sent trace].
    rewrite <- List.app_assoc. cbn [List.app].
    split_and!; first [reflexivity | cbn; lia | discriminate].
  - exists []. cbn [snd trace]. rewrite List.app_nil_r.
    split_and!; first [reflexivity | cbn; lia].
Qed.

Lemma consulted_timeline (port : option port_t) (env : gmap string string) :
  timeline (consulted port env) = [] /\
  total_sleep (consulted port env) = 0%Q /\
  rpc_calls (consulted port env) = [] /\
  discovery (consulted port env) = consulted port env.
Proof.
  unfold consulted. destruct port; [now repeat split|].
  destruct (env !! "CDL_XMLRPCPORT" ≫= int_of_str); now repeat split.
Qed.

End AttemptTrace.

(** ** The retry loop *)

Section RetryLoop.

Context `{P : Platform} `{Srv : !Server}.

Variables (port : option port_t) (timeout : Q) (retries : Z).

Let d : Q := (timeout / inject_Z retries)%Q.

Lemma sleep_run (secs : Q) (s : pstate) :
  sleep secs s
  = (Ok tt, mkState (environ s) (self_port s) (self_cdl s)
              (time_passes (the_world s) secs) (trace s ++ [EvSleep secs])).
Proof. reflexivity. Qed.

(** One turn of the loop, by the outcome of its attempt. *)
Lemma connect_loop_connected (n : nat) (s s1 : pstate) :
  __connect_to_server port s = (Ok tt, s1) ->
  connect_loop (S n) port timeout retries s = (Ok true, s1).
Proof.
  intros H. cbn [connect_loop]. unfold bind at 1, try_except, bind at 1.
  now rewrite H.
Qed.

Lemma connect_loop_failed (n : nat) (s s1 : pstate) (msg : string) :
  __connect_to_server port s = (Raise (CDLConnectionError msg), s1) ->
  connect_loop (S n) port timeout retries s
  = connect_loop n port timeout retries (snd (sleep d s1)).
Proof.
  intros H. cbn [connect_loop]. unfold bind at 1, try_except, bind at 1.
  rewrite H. cbn [is_CDLConnectionError]. unfold bind at 1.
  fold d. rewrite sleep_run. reflexivity.
Qed.

Lemma connect_loop_raised (n : nat) (s s1 : pstate) (e : exn) :
  __connect_to_server port s = (Raise e, s1) ->
  is_CDLConnectionError e = false ->
  connect_loop (S n) port timeout retries s = (Raise e, s1).
Proof.
  intros H He. cbn [connect_loop]. unfold bind at 1, try_except, bind at 1.
  now rewrite H, He.
Qed.



(** *** Traces *)

Lemma timeline_app (a b : list event) :
  timeline (a ++ b) = timeline a ++ timeline b.
Proof. apply List.filter_app. Qed.

Lemma total_sleep_app (a b : list event) :
  (total_sleep (a ++ b) == total_sleep a + total_sleep b)%Q.
Proof.
  induction a as [|ev a IH]; cbn [List.app total_sleep].
  - now rewrite Qplus_0_l.
  - destruct ev; try exact IH. rewrite IH. now rewrite Qplus_assoc.
Qed.





(** The trace of an attempt, as the loop sees it. *)
Lemma attempt_timeline (s : pstate) :
  exists evs : list event,
    trace (snd (__connect_to_server port s)) = trace s ++ evs /\
    timeline evs = [EvEnter "__connect_to_server"].
Proof.
  destruct (connect_to_server_trace port s) as (rpc & Htr & _ & Ht & _).
  eexists. split; [exact Htr|].
  change (EvEnter "__connect_to_server" :: consulted port (environ s) ++ rpc)
    with ([EvEnter "__connect_to_server"] ++ consulted port (environ s) ++ rpc).
  rewrite !timeline_app, Ht.
  destruct (consulted_timeline port (environ s)) as (-> & _).
  reflexivity.
Qed.


(** The loop, whatever the world does: [k] failed attempts, each followed
    by the wait, and then either nothing more (the loop ran out) or one
    last attempt that connected or raised another exception. *)
Lemma connect_loop_timeline (n : nat) :
  forall s : pstate,
    exists (k : nat) (evs : list event),
      trace (snd (connect_loop n port timeout retries s)) = trace s ++ evs /\
      ((fst (connect_loop n port timeout retries s) = Ok false /\
        k = n /\ timeline evs = rounds k d) \/
       ((fst (connect_loop n port timeout retries s) = Ok true \/
         exists e, fst (connect_loop n port timeout retries s) = Raise e /\
                   is_CDLConnectionError e = false) /\
        (k < n)%nat /\
        timeline evs = rounds k d ++ [EvEnter "__connect_to_server"])).
Proof.
  induction n as [|n IH]; intros s.
  - exists O, []. split; [now rewrite List.app_nil_r|]. now left.
  - destruct (attempt_timeline s) as (evs & Htr & Ht).
    destruct (__connect_to_server port s) as [[[]|e] s1] eqn:E.
    + rewrite (connect_loop_connected n s s1 E).
      exists O, evs. split; [exact Htr|]. right.
      split; [now left|]. split; [lia | exact Ht].
    + destruct (is_CDLConnectionError e) eqn:He.
      * destruct e; try discriminate He.
        rewrite (connect_loop_failed n s s1 msg E).
        destruct (IH (snd (sleep d s1))) as (k & evs' & Htr' & Hcase).
        assert (Hs : trace (snd (sleep d s1)) = trace s1 ++ [EvSleep d])
          by reflexivity.
        rewrite Hs in Htr'. cbn [snd] in Htr.
        exists (S k), (evs ++ [EvSleep d] ++ evs'). split.
        -- rewrite Htr', Htr. now rewrite <- !List.app_assoc.
        -- rewrite !timeline_app, Ht.
           destruct Hcase as [(Hr & -> & Ht') | (Hr & Hk & Ht')];
             [left | right]; rewrite Ht'; split_and!;
             first [assumption | reflexivity | lia].
      * rewrite (connect_loop_raised n s s1 e E He).
        exists O, evs. split; [exact Htr|]. right.
        split; [right; now exists e|]. split; [lia | exact Ht].
Qed.


End RetryLoop.

(** ** [connect] *)

Section Connect.

Context `{P : Platform} `{Srv : !Server}.

Lemma connect_run (port : option port_t) (timeout : option Q)
    (retries : option Z) (s : pstate) :
  let t := default 5%Q timeout in
  let r := default 10%Z retries in
  (0 <= t)%Q -> (1 <= r)%Z ->
  connect port timeout retries s
  = match connect_loop (Z.to_nat r) port t r (announced s) with
    | (Ok true, s1) =>
        (Ok tt,
         snd (log (EvPrint ("OK (port: " ++ str_self_port (self_port s1)
                              ++ ")")) s1))
    | (Ok false, s1) =>
        (Raise (CDLConnectionError "Unable to connect to DataLab"),
         snd (log (EvPrint "KO") s1))
    | (Raise e, s1) => (Raise e, s1)
    end.
Proof.
  cbv zeta. intros Ht Hr. unfold connect.
  change (match timeout with Some t => t | None => 5%Q end)
    with (default 5%Q timeout).
  change (match retries with Some r => r | None => 10%Z end)
    with (default 10%Z retries).
  apply Qlt_bool_false in Ht. rewrite Ht.
  assert (Hr' : (default 10%Z retries <? 1)%Z = false) by (apply Z.ltb_ge; lia).
  rewrite Hr'. unfold bind at 1. unfold announced.
  destruct (log _ s) as [[[]|e] s0] eqn:E; [|discriminate E].
  cbn [snd]. unfold bind at 1.
  destruct (connect_loop _ _ _ _ s0) as [[[|]|e] s1]; reflexivity.
Qed.


End Connect.

Section ConnectTrace.

Context `{P : Platform} `{Srv : !Server}.

Lemma attempts_app (a b : list event) :
  attempts (a ++ b) = (attempts a + attempts b)%nat.
Proof. unfold attempts. now rewrite List.filter_app, List.length_app. Qed.



(** The only [CDLConnectionError] that leaves [connect] is its own: the
    errors of the attempts are caught by the loop. *)
Lemma connect_own_error (port : option port_t) (timeout : option Q)
    (retries : option Z) (s : pstate) (msg : string) :
  (0 <= default 5%Q timeout)%Q -> (1 <= default 10%Z retries)%Z ->
  fst (connect port timeout retries s) = Raise (CDLConnectionError msg) ->
  msg = "Unable to connect to DataLab".
Proof.
  intros Ht Hr. rewrite (connect_run port timeout retries s Ht Hr).
  destruct (connect_loop_timeline port (default 5%Q timeout)
              (default 10%Z retries) (Z.to_nat (default 10%Z retries))
              (announced s)) as (k & evs & _ & Hcase).
  destruct (connect_loop _ _ _ _ (announced s)) as [[[|]|e] s1];
    cbn [fst] in *; intros H.
  - discriminate H.
  - now injection H as <-.
  - destruct Hcase as [(Hres & _) | ([Hres | (e' & Hres & He)] & _)];
      try discriminate Hres.
    injection Hres as <-. injection H as ->. discriminate He.
Qed.

End ConnectTrace.

(** ** Port discovery *)



(** ** Bounded retries *)



(** ** Timeout slicing *)



(** ** More on the array codec *)

Section CodecFacts.

Import Npy.

Lemma wrap_header_fits (a : ndarray) :
  wf_ndarray a ->
  exists hdr, wrap_header_guess_version (header_dict a) = Ok hdr.
Proof.
  intros Hwf. pose proof (header_dict_bound a Hwf) as Hb.
  unfold wrap_header_guess_version, wrap_header.
  set (hlen := (N.of_nat (String.length (header_dict a)) + 1)%N).
  set (padlen := (ARRAY_ALIGN - ((MAGIC_LEN + N.of_nat 2 + hlen) mod ARRAY_ALIGN))%N).
  assert (Hpad : (padlen <= 64)%N) by (unfold padlen, ARRAY_ALIGN; apply N.le_sub_l).
  destruct (N.ltb_spec (hlen + padlen) (256 ^ N.of_nat 2)) as [_|Hge]; [eauto|].
  unfold hlen in Hge. change (256 ^ N.of_nat 2)%N with 65536%N in Hge. lia.
Qed.

Lemma save_refuses_objects (a : ndarray) :
  wf_ndarray a -> hasobject (a_dtype a) = true ->
  save a = Raise (ValueError
                    "Object arrays cannot be saved when allow_pickle=False").
Proof.
  intros Hwf Hobj. destruct (wrap_header_fits a Hwf) as (hdr & Hh).
  unfold save. now rewrite Hh, Hobj.
Qed.




End CodecFacts.

(** X1. Arrays of Python objects never leave the client: for such an
    [xdata] or [ydata], [add_signal] raises the [ValueError] of
    [array_to_rpcbinary], whether the proxy is connected or not, and
    leaves the state as it was: nothing is sent. *)
Theorem add_signal_refuses_objects `{P : Platform} `{Srv : !Server}
    (title : pyval) (xdata ydata : Npy.ndarray)
    (xunit yunit xlabel ylabel : pyval) (s : pstate) :
  Npy.wf_ndarray xdata -> Npy.wf_ndarray ydata ->
  Npy.hasobject (Npy.a_dtype xdata) = true \/
  Npy.hasobject (Npy.a_dtype ydata) = true ->
  add_signal title xdata ydata xunit yunit xlabel ylabel s
  = (Raise (ValueError
              "Object arrays cannot be saved when allow_pickle=False"), s).
Proof.
  intros Hx Hy Hobj. unfold add_signal, bind at 1, lift, array_to_rpcbinary.
  destruct (Npy.hasobject (Npy.a_dtype xdata)) eqn:Ex.
  - now rewrite (save_refuses_objects xdata Hx Ex).
  - destruct Hobj as [Hobj | Hobj]; [discriminate|].
    destruct (load_save xdata Hx Ex) as (bs & -> & _).
    unfold bind at 1. now rewrite (save_refuses_objects ydata Hy Hobj).
Qed.

Lemma add_signal_refuses_objects_witness :
  add_signal (PStr "s") demo_array demo_object_array PNone PNone PNone PNone
    demo_connected
  = (Raise (ValueError
              "Object arrays cannot be saved when allow_pickle=False"),
     demo_connected).
Proof.
  apply add_signal_refuses_objects.
  - repeat split; try (unfold Npy.NPY_MAXDIMS; simpl; lia); try reflexivity.
    repeat constructor.
  - exact demo_object_array_wf.
  - right. reflexivity.
Defined.




(** ** A proxy without a server *)

Section Unconnected.

Context `{P : Platform} `{Srv : !Server}.

Lemma cdl_attr_none (s : pstate) (method : string) :
  self_cdl s = None ->
  cdl_attr method s = (Raise (no_attribute method), s).
Proof. intros H. unfold cdl_attr, bind, get_state. now rewrite H. Qed.

Lemma cdl_call_none (s : pstate) (method : string) (args : list pyval) :
  self_cdl s = None ->
  cdl_call method args s = (Raise (no_attribute method), s).
Proof.
  intros H. unfold cdl_call, bind at 1. now rewrite (cdl_attr_none s method H).
Qed.

Lemma cdl_call_then_none (s : pstate) (method : string) (args : list pyval) :
  self_cdl s = None ->
  (cdl_call method args ;; ret PNone) s = (Raise (no_attribute method), s).
Proof. intros H. unfold bind at 1. now rewrite (cdl_call_none s _ _ H). Qed.

(** What a call does while [self._cdl] is [None]. *)
Lemma invoke_unconnected (c : call) (s : pstate) :
  self_cdl s = None ->
  invoke c s
  = (match c with
     | Calc _ _ => Raise (no_attribute "calc")
     | _ =>
         match wire_args c with
         | Raise e => Raise e
         | Ok None => Ok PNone
         | Ok (Some _) => Raise (no_attribute (method_name c))
         end
     end, s).
Proof.
  intros H.
  destruct c; cbn [invoke wire_args method_name call_args];
    try (unfold get_version, close_application, switch_to_panel, reset_all,
           save_to_h5_file, open_h5_files, import_h5_file, open_object,
           get_sel_object_uuids, select_objects, select_groups,
           delete_metadata, get_object_titles, get_object_uuids,
           add_label_with_title;
         first [ now apply cdl_call_then_none | now apply cdl_call_none ]).
  - unfold add_signal, bind at 1, lift.
    destruct (array_to_rpcbinary xdata); [|reflexivity].
    unfold bind at 1.
    destruct (array_to_rpcbinary ydata); [|reflexivity].
    now apply cdl_call_none.
  - unfold add_image, bind at 1, lift.
    destruct (array_to_rpcbinary data0); [|reflexivity].
    now apply cdl_call_none.
  - unfold calc. destruct param as [param|]; [|now apply cdl_call_none].
    unfold bind at 1. now rewrite (cdl_attr_none s "calc" H).
  - unfold add_annotations_from_items, bind at 1, try_except, items_to_json.
    destruct plotpy_installed; [|reflexivity].
    destruct items as [|item items]; [reflexivity|].
    unfold bind at 1, lift.
    destruct (save_items_json (item :: items)) as [j|e].
    + unfold ret at 1. now apply cdl_call_then_none.
    + destruct e; reflexivity.
Qed.

End Unconnected.

(** X4. Without a server proxy ([self._cdl] is [None], as before [connect]
    and after [disconnect]) a control call changes nothing and sends
    nothing. It returns normally only for [add_annotations_from_items]
    with an empty list of items; every call that would have reached the
    server raises the [AttributeError] of the attribute access on
    [None]. *)
Theorem unconnected_calls_send_nothing `{P : Platform} `{Srv : !Server}
    (c : call) (s : pstate) :
  self_cdl s = None ->
  snd (invoke c s) = s /\
  match fst (invoke c s) with
  | Ok v =>
      v = PNone /\
      exists refresh_plot panel,
        c = AddAnnotationsFromItems [] refresh_plot panel
  | Raise e =>
      sends_request c = true -> e = no_attribute (method_name c)
  end.
Proof.
  intros H. rewrite (invoke_unconnected c s H). cbn [fst snd].
  split; [reflexivity|].
  destruct c; cbn [wire_args sends_request method_name call_args];
    try reflexivity; unfold encodable, is_ok.
  - destruct (array_to_rpcbinary xdata); [|discriminate].
    destruct (array_to_rpcbinary ydata); [reflexivity | discriminate].
  - destruct (array_to_rpcbinary data0); [reflexivity | discriminate].
  - destruct plotpy_installed; [|discriminate].
    destruct items as [|item items]; [split; eauto|].
    destruct (save_items_json (item :: items)) as [j|e]; [reflexivity|].
    destruct e; discriminate.
Qed.

Lemma unconnected_calls_send_nothing_witness :
  invoke ResetAll (demo_state 0 true)
  = (Raise (no_attribute "reset_all"), demo_state 0 true).
Proof.
  pose proof (unconnected_calls_send_nothing ResetAll (demo_state 0 true)
                eq_refl) as (Hs & He).
  destruct (invoke ResetAll (demo_state 0 true)) as [[v|e] s'];
    cbn [fst snd] in *.
  - destruct He as (_ & r & p & Hc). discriminate Hc.
  - now rewrite Hs, (He eq_refl).
Defined.

(** X5. [disconnect] only forgets the server proxy: [self.port], the
    environment, the world and the trace stay, and from then on every call
    that needs the server raises [AttributeError] without sending
    anything. *)
Theorem disconnect_forgets_server `{P : Platform} `{Srv : !Server}
    (s : pstate) :
  let s' := snd (disconnect s) in
  fst (disconnect s) = Ok tt /\
  s' = mkState (environ s) (self_port s) None (the_world s) (trace s) /\
  forall c,
    snd (invoke c s') = s' /\
    (sends_request c = true ->
     fst (invoke c s') = Raise (no_attribute (method_name c))).
Proof.
  cbv zeta. split; [reflexivity|]. split; [reflexivity|].
  intros c.
  assert (H : self_cdl (snd (disconnect s)) = None) by reflexivity.
  rewrite (invoke_unconnected c _ H). cbn [fst snd].
  split; [reflexivity|].
  destruct c; cbn [wire_args sends_request method_name call_args];
    try reflexivity; unfold encodable, is_ok.
  - destruct (array_to_rpcbinary xdata); [|discriminate].
    destruct (array_to_rpcbinary ydata); [reflexivity | discriminate].
  - destruct (array_to_rpcbinary data0); [reflexivity | discriminate].
  - destruct plotpy_installed; [|discriminate].
    destruct items as [|item items]; [discriminate|].
    destruct (save_items_json (item :: items)) as [j|e]; [reflexivity|].
    destruct e; discriminate.
Qed.

(** X6. A new client is not connected: after [RemoteClient.__init__] both
    [self.port] and [self._cdl] are [None] and nothing else has changed,
    so that a control call made before [connect] sends nothing and, if it
    needs the server, raises [AttributeError]. *)
Theorem new_client_is_unconnected `{P : Platform} `{Srv : !Server}
    (s : pstate) (c : call) :
  let s' := snd (RemoteClient__init__ s) in
  s' = mkState (environ s) None None (the_world s) (trace s) /\
  requests s' (snd (invoke c s')) = 0%nat /\
  (is_plain c = true ->
   invoke c s' = (Raise (no_attribute (method_name c)), s')).
Proof.
  cbv zeta.
  assert (H : self_cdl (snd (RemoteClient__init__ s)) = None) by reflexivity.
  split; [reflexivity|]. split.
  - rewrite (invoke_unconnected c _ H). cbn [snd].
    unfold requests. now rewrite new_events_same.
  - intros Hc. rewrite (invoke_unconnected c _ H).
    destruct c; try discriminate Hc; reflexivity.
Qed.

(** ** Compute functions, found by name *)

(** X7. A compute function looked up by name forwards to the remote
    [calc] under its full name, prefix included: with a server proxy in
    place, [proxy.compute_xyz(param)] sends the one request
    [calc("compute_xyz")], or [calc("compute_xyz", dataset_to_json(param))]
    when a parameter is given, and returns the answer of the server. *)
Theorem compute_function_calls_calc `{P : Platform} `{Srv : !Server}
    (rest : string) (s : pstate) (sp : ServerProxy) :
  self_cdl s = Some sp ->
  let name := ("compute_" ++ rest)%string in
  let outcome args :=
    (fst (xmlrpc_call (the_world s) (sp_uri sp) "calc" args),
     sent s (snd (xmlrpc_call (the_world s) (sp_uri sp) "calc" args))
       (sp_uri sp) "calc" args) in
  exists compute_func,
    __getattr__ name = Ok compute_func /\
    compute_func None s = outcome [PStr name] /\
    forall param param_data,
      dataset_to_json param = Ok param_data ->
      compute_func (Some param) s = outcome [PStr name; param_data].
Proof.
  intros H name outcome. unfold __getattr__.
  assert (Hp : String.prefix "compute_" name = true)
    by (apply prefix_app; now exists rest).
  rewrite Hp. eexists. split; [reflexivity|].
  cbn [self_calc RemoteClient]. split.
  - change (calc name None s) with (invoke (Calc name None) s).
    now rewrite (invoke_run _ s sp H).
  - intros param param_data Hd.
    change (calc name (Some param) s) with (invoke (Calc name (Some param)) s).
    rewrite (invoke_run _ s sp H). cbn [wire_args]. now rewrite Hd.
Qed.

Lemma compute_function_calls_calc_witness :
  exists compute_func,
    __getattr__ "compute_fft" = Ok compute_func /\
    compute_func None demo_connected
    = (Ok (PStr "1.0.0"),
       sent demo_connected (O, true) "http://127.0.0.1:8000" "calc"
         [PStr "compute_fft"]).
Proof.
  destruct (compute_function_calls_calc "fft" demo_connected
              (mkServerProxy "http://127.0.0.1:8000" true) eq_refl)
    as (f & Hf & Hnone & _).
  exists f. split; [exact Hf | exact Hnone].
Defined.


(** ** The configuration file and the environment *)

(** X9. Looking the port up in the configuration file touches the
    process in one way only: on Windows it removes [HOME] from
    [os.environ], and every other variable stays; elsewhere the
    environment stays as it is. Whatever the outcome, nothing is sent,
    [self.port] and [self._cdl] keep their values, and the only thing
    done outside is reading [DataLab.ini]. *)
Theorem get_cdl_xmlrpc_port_side_effects `{P : Platform} `{Srv : !Server}
    (s : pstate) :
  let s' := snd (get_cdl_xmlrpc_port s) in
  environ s' = (if String.eqb sys_platform "win32"
                then delete "HOME" (environ s) else environ s) /\
  (forall name, name <> "HOME" -> environ s' !! name = environ s !! name) /\
  self_port s' = self_port s /\ self_cdl s' = self_cdl s /\
  the_world s' = the_world s /\
  new_events s s' = [EvReadIni (config_fname (environ s))].
Proof.
  cbv zeta. rewrite get_cdl_xmlrpc_port_run. cbn [snd environ self_port
    self_cdl the_world].
  assert (He : environ_for_config (environ s)
               = if String.eqb sys_platform "win32"
                 then delete "HOME" (environ s) else environ s).
  { unfold environ_for_config.
    destruct (String.eqb sys_platform "win32"); [|reflexivity].
    cbn [andb]. case_bool_decide as Hh; [reflexivity|].
    symmetry. apply delete_id.
    destruct (environ s !! "HOME") eqn:E; [|reflexivity].
    exfalso. apply Hh. eauto. }
  split; [exact He|]. split; [|split_and!; try reflexivity].
  - intros name Hn. rewrite He.
    destruct (String.eqb sys_platform "win32"); [|reflexivity].
    now apply lookup_delete_ne.
  - now apply new_events_app.
Qed.


(** ** Plot items *)

(** X11. With PlotPy at hand, [items_to_json] returns [None] for the empty
    list and only for it; without PlotPy it raises [ImportError] even for
    the empty list. It never touches the state. *)
Theorem items_to_json_none_iff_empty `{P : Platform} `{Srv : !Server}
    (items : list PlotItem) (s : pstate) :
  snd (items_to_json items s) = s /\
  (plotpy_installed = true ->
   (fst (items_to_json items s) = Ok None <-> items = [])) /\
  (plotpy_installed = false ->
   exists msg, fst (items_to_json items s) = Raise (ImportError msg)).
Proof.
  unfold items_to_json. destruct plotpy_installed.
  - destruct items as [|item items].
    + split; [reflexivity|]. split; [|discriminate]. intros _. now split.
    + unfold bind, lift, ret.
      destruct (save_items_json (item :: items)) as [j|e]; cbn [fst snd];
        (split; [reflexivity|]); (split; [|discriminate]); intros _;
        split; discriminate.
  - split; [reflexivity|]. split; [discriminate|]. intros _. eauto.
Qed.

Lemma items_to_json_none_iff_empty_witness :
  fst (items_to_json [] demo_connected) = Ok None /\
  fst (items_to_json demo_items demo_connected) <> Ok None.
Proof.
  destruct (items_to_json_none_iff_empty [] demo_connected)
    as (_ & H1 & _).
  destruct (items_to_json_none_iff_empty demo_items demo_connected)
    as (_ & H2 & _).
  split.
  - now apply (H1 eq_refl).
  - intros H. apply (H2 eq_refl) in H. discriminate H.
Defined.

(** X12. Without PlotPy, [add_annotations_from_items] raises
    [ImportError("PlotPy is not installed")] for every list of items, the
    empty one included, connected or not, and sends nothing. *)
Theorem add_annotations_needs_plotpy `{P : Platform} `{Srv : !Server}
    (items : list PlotItem) (refresh_plot panel : pyval) (s : pstate) :
  plotpy_installed = false ->
  add_annotations_from_items items refresh_plot panel s
  = (Raise (ImportError "PlotPy is not installed"), s).
Proof.
  intros H. unfold add_annotations_from_items, bind, try_except, items_to_json.
  now rewrite H.
Qed.

Lemma add_annotations_needs_plotpy_witness :
  @add_annotations_from_items bare_platform bare_server [] PNone PNone
    bare_state
  = (Raise (ImportError "PlotPy is not installed"), bare_state).
Proof.
  apply (@add_annotations_needs_plotpy bare_platform bare_server).
  reflexivity.
Defined.

(** ** Public methods *)

Section PublicMethods.

Context `{P : Platform} `{Srv : !Server}.

Lemma get_public_methods_spec (dir_cls : list string) (method : string) :
  In method (get_public_methods dir_cls) <->
  In method dir_cls /\ String.prefix "_" method = false /\
  method <> "get_public_methods".
Proof.
  unfold get_public_methods. rewrite List.filter_In.
  rewrite Bool.andb_true_iff, !Bool.negb_true_iff, String.eqb_neq.
  tauto.
Qed.

End PublicMethods.

(** X13. [get_public_methods] lists, in the order of [dir(cls)], the names
    that do not start with an underscore, itself excepted. Every control
    method of the proxy that [dir(cls)] knows is therefore listed, and no
    listed name is private. *)
Theorem get_public_methods_lists_controls `{P : Platform} `{Srv : !Server}
    (dir_cls : list string) :
  (forall c, In (method_name c) dir_cls ->
             In (method_name c) (get_public_methods dir_cls)) /\
  ~ In "get_public_methods" (get_public_methods dir_cls) /\
  (forall method, In method (get_public_methods dir_cls) ->
     In method dir_cls /\ forall rest, method <> String "_" rest) /\
  (forall private, get_public_methods (dir_cls ++ [String "_" private])
                   = get_public_methods dir_cls).
Proof.
  split_and!.
  - intros c Hc. apply get_public_methods_spec. split; [exact Hc|].
    destruct c; split; (reflexivity || discriminate).
  - intros H. apply get_public_methods_spec in H as (_ & _ & H). now apply H.
  - intros method H. apply get_public_methods_spec in H as (Hin & Hp & _).
    split; [exact Hin|]. intros rest ->. cbn in Hp.
    destruct rest; discriminate Hp.
  - intros private. unfold get_public_methods.
    rewrite List.filter_app. cbn [List.filter].
    replace (String.prefix "_" (String "_" private)) with true.
    + cbn. apply List.app_nil_r.
    + cbn. now destruct private.
Qed.

(** ** Data sets read back *)

(** X14. [json_to_dataset] takes exactly three values: for any other
    number it raises the [ValueError] of the unpacking, before any module
    is imported, whatever guidata would do. *)
Theorem json_to_dataset_needs_three `{P : Platform} `{Imp : !Importer}
    (param_data : list string) :
  length param_data <> 3%nat ->
  json_to_dataset param_data = Raise (unpack3_error (length param_data)) /\
  exists msg, unpack3_error (length param_data) = ValueError msg.
Proof.
  intros H. split.
  - destruct param_data as [|a [|b [|c [|d l]]]]; try reflexivity.
    now contradict H.
  - unfold unpack3_error. destruct (length param_data <? 3)%nat; eauto.
Qed.

Lemma json_to_dataset_needs_three_witness :
  json_to_dataset ["cdl.param"; "GaussianParam"]
  = Raise (ValueError "not enough values to unpack (expected 3, got 2)").
Proof.
  assert (H : length ["cdl.param"; "GaussianParam"] <> 3%nat) by discriminate.
  destruct (json_to_dataset_needs_three ["cdl.param"; "GaussianParam"] H)
    as (Hr & _).
  exact Hr.
Defined.

(** ** More on attempts and on [connect] *)

Section ConnectFacts.

Context `{P : Platform} `{Srv : !Server}.

Lemma wire_args_sends (c : call) :
  match wire_args c with
  | Ok (Some _) => sends_request c = true
  | _ => sends_request c = false
  end.
Proof.
  destruct c; try reflexivity; cbn [wire_args sends_request];
    unfold encodable, is_ok.
  - destruct (array_to_rpcbinary xdata); [|reflexivity].
    destruct (array_to_rpcbinary ydata); reflexivity.
  - destruct (array_to_rpcbinary data0); reflexivity.
  - destruct param as [param|]; [|reflexivity].
    unfold dataset_to_json. destruct (serialize_json param); reflexivity.
  - destruct plotpy_installed; [|reflexivity].
    destruct items as [|item items]; [reflexivity|].
    destruct (save_items_json (item :: items)) as [j|e]; [reflexivity|].
    destruct e; reflexivity.
Qed.

Variables (port : option port_t) (timeout : Q) (retries : Z).

Let d : Q := (timeout / inject_Z retries)%Q.

Lemma connect_loop_other (j : nat) :
  forall (m : nat) (s sj sj' : pstate) (e : exn),
    after_failures j port d s = Some sj ->
    __connect_to_server port sj = (Raise e, sj') ->
    is_CDLConnectionError e = false ->
    connect_loop (j + S m) port timeout retries s = (Raise e, sj').
Proof.
  induction j as [|j IH]; intros m s sj sj' e H Hr He.
  - cbn in H. injection H as <-. now apply connect_loop_raised.
  - cbn [after_failures] in H.
    destruct (__connect_to_server port s) as [[[]|e0] s1] eqn:E;
      try discriminate H.
    destruct e0; try discriminate H.
    cbn [Nat.add]. rewrite (connect_loop_failed _ _ _ _ s s1 msg E).
    now apply (IH m _ sj).
Qed.

(** How the loop ends: after [k] failed attempts it has run out, or the
    next attempt connected, or it raised something else. *)
Lemma connect_loop_cases (n : nat) :
  forall s : pstate,
    exists (k : nat) (sk : pstate),
      after_failures k port d s = Some sk /\
      ((k = n /\ connect_loop n port timeout retries s = (Ok false, sk)) \/
       ((k < n)%nat /\ exists s',
          __connect_to_server port sk = (Ok tt, s') /\
          connect_loop n port timeout retries s = (Ok true, s')) \/
       ((k < n)%nat /\ exists e s',
          __connect_to_server port sk = (Raise e, s') /\
          is_CDLConnectionError e = false /\
          connect_loop n port timeout retries s = (Raise e, s'))).
Proof.
  induction n as [|n IH]; intros s.
  - exists O, s. split; [reflexivity|]. now left.
  - destruct (__connect_to_server port s) as [[[]|e] s1] eqn:E.
    + exists O, s. split; [reflexivity|]. right. left.
      split; [lia|]. exists s1. split; [exact E|].
      now apply connect_loop_connected.
    + destruct (is_CDLConnectionError e) eqn:He.
      * destruct e; try discriminate He.
        rewrite (connect_loop_failed _ _ _ n s s1 msg E).
        destruct (IH (snd (sleep d s1))) as (k & sk & Hk & Hcase).
        exists (S k), sk. split; [cbn [after_failures]; now rewrite E|].
        destruct Hcase as [(-> & Hl) | [(Hlt & Hl) | (Hlt & Hl)]].
        -- left. now split.
        -- right. left. split; [lia | exact Hl].
        -- right. right. split; [lia | exact Hl].
      * exists O, s. split; [reflexivity|]. right. right.
        split; [lia|]. exists e, s1. split; [exact E|]. split; [exact He|].
        now apply connect_loop_raised.
Qed.

(** A property of traces that holds of nothing, of a wait, of what an
    attempt adds, and of two traces put end to end when it holds of both,
    holds of what the loop adds. *)
Lemma connect_loop_invariant (I : list event -> Prop) :
  I [] ->
  (forall a b, I a -> I b -> I (a ++ b)) ->
  (forall secs, I [EvSleep secs]) ->
  (forall s, exists evs,
      trace (snd (__connect_to_server port s)) = trace s ++ evs /\ I evs) ->
  forall (n : nat) (s : pstate),
    exists evs,
      trace (snd (connect_loop n port timeout retries s)) = trace s ++ evs /\
      I evs.
Proof.
  intros Hnil Happ Hsleep Hattempt.
  induction n as [|n IH]; intros s.
  - exists []. split; [now rewrite List.app_nil_r | exact Hnil].
  - destruct (Hattempt s) as (evs & Htr & Hevs).
    destruct (__connect_to_server port s) as [[[]|e] s1] eqn:E;
      cbn [snd] in Htr.
    + rewrite (connect_loop_connected _ _ _ n s s1 E). now exists evs.
    + destruct (is_CDLConnectionError e) eqn:He.
      * destruct e; try discriminate He.
        rewrite (connect_loop_failed _ _ _ n s s1 msg E).
        destruct (IH (snd (sleep (timeout / inject_Z retries) s1))) as (evs' & Htr' & Hevs').
        assert (Hs : trace (snd (sleep (timeout / inject_Z retries) s1)) = trace s1 ++ [EvSleep d])
          by reflexivity.
        rewrite Hs in Htr'.
        exists (evs ++ [EvSleep (timeout / inject_Z retries)] ++ evs'). split.
        -- rewrite Htr', Htr. now rewrite <- !List.app_assoc.
        -- apply Happ; [exact Hevs|]. apply Happ; [apply Hsleep | exact Hevs'].
      * rewrite (connect_loop_raised _ _ _ n s s1 e E He). now exists evs.
Qed.

End ConnectFacts.

Section ConnectEvents.

Context `{P : Platform} `{Srv : !Server}.

(** What an attempt adds to the trace. *)
Lemma attempt_events (port : option port_t) (s : pstate) :
  exists rpc : list event,
    trace (snd (__connect_to_server port s))
    = trace s ++ EvEnter "__connect_to_server"
              :: consulted port (environ s) ++ rpc /\
    (rpc = [] \/ exists p, rpc = [EvRpc (server_uri p) "get_version" []]).
Proof.
  rewrite connect_to_server_run. cbv zeta.
  destruct (discovered_port port (environ s) _) as [p|e].
  - exists [EvRpc (server_uri p) "get_version" []]. cbn [snd sent trace].
    rewrite <- List.app_assoc. cbn [List.app]. split; [reflexivity|].
    right. now exists p.
  - exists []. cbn [snd trace]. rewrite List.app_nil_r. split; [reflexivity|].
    now left.
Qed.

(** What [connect] adds to the trace, around what its loop added. *)
Lemma connect_events_shape (port : option port_t) (timeout : option Q)
    (retries : option Z) (s : pstate) :
  (0 <= default 5%Q timeout)%Q -> (1 <= default 10%Z retries)%Z ->
  forall evs : list event,
    trace (snd (connect_loop (Z.to_nat (default 10%Z retries)) port
                  (default 5%Q timeout) (default 10%Z retries) (announced s)))
    = trace (announced s) ++ evs ->
    exists closing : list event,
      new_events s (snd (connect port timeout retries s))
      = [EvPrint "Connecting to DataLab XML-RPC server..."]
          ++ evs ++ closing /\
      (closing = [] \/ exists text, closing = [EvPrint text]).
Proof.
  intros Ht Hr evs Htr.
  rewrite (connect_run port timeout retries s Ht Hr).
  destruct (connect_loop _ _ _ _ (announced s)) as [[[|]|e] s1];
    cbn [snd] in Htr.
  - eexists [EvPrint _]. split; [|right; eauto].
    apply new_events_app. cbn [snd log trace]. rewrite Htr.
    unfold announced. cbn [snd log trace].
    now rewrite <- !List.app_assoc.
  - eexists [EvPrint _]. split; [|right; eauto].
    apply new_events_app. cbn [snd log trace]. rewrite Htr.
    unfold announced. cbn [snd log trace].
    now rewrite <- !List.app_assoc.
  - exists []. split; [|now left].
    apply new_events_app. cbn [snd]. rewrite Htr.
    unfold announced. cbn [snd log trace].
    now rewrite <- !List.app_assoc, List.app_nil_r.
Qed.

Lemma env_reads_app (a b : list event) :
  env_reads (a ++ b) = (env_reads a + env_reads b)%nat.
Proof. unfold env_reads. now rewrite List.filter_app, List.length_app. Qed.

Lemma discovery_app (a b : list event) :
  discovery (a ++ b) = discovery a ++ discovery b.
Proof. apply List.filter_app. Qed.

Lemma rpc_calls_app (a b : list event) :
  rpc_calls (a ++ b) = rpc_calls a ++ rpc_calls b.
Proof. apply List.filter_app. Qed.

End ConnectEvents.



(** X16. When [connect] returns, the client is connected: [self.port] is
    the port of the attempt that succeeded (the one passed, when one was
    passed), [self._cdl] points at it, the last thing printed is
    [OK (port: ...)] with that port, and from then on every control call
    whose arguments can be sent makes exactly one request. *)
Theorem connect_success `{P : Platform} `{Srv : !Server}
    (port : option port_t) (timeout : option Q) (retries : option Z)
    (s : pstate) :
  (0 <= default 5%Q timeout)%Q -> (1 <= default 10%Z retries)%Z ->
  fst (connect port timeout retries s) = Ok tt ->
  let s' := snd (connect port timeout retries s) in
  exists p : port_t,
    self_port s' = Some p /\
    self_cdl s' = Some (mkServerProxy (server_uri p) true) /\
    (forall q, port = Some q -> p = q) /\
    (exists evs, trace s'
                 = evs ++ [EvPrint ("OK (port: " ++ str_port p ++ ")")]) /\
    (forall c, sends_request c = true ->
               requests s' (snd (invoke c s')) = 1%nat).
Proof.
  intros Ht Hr Hok. cbv zeta.
  rewrite (connect_run port timeout retries s Ht Hr) in *.
  destruct (connect_loop_cases port (default 5%Q timeout)
              (default 10%Z retries) (Z.to_nat (default 10%Z retries))
              (announced s)) as (k & sk & _ & Hcase).
  destruct Hcase as [(_ & Hl) | [(_ & s1 & Ha & Hl) | (_ & e & s1 & _ & _ & Hl)]];
    rewrite Hl in *; cbn [fst snd] in *; try discriminate Hok.
  rewrite connect_to_server_run in Ha. cbv zeta in Ha.
  destruct (discovered_port port (environ sk) _) as [p|e] eqn:Hd;
    [|discriminate Ha].
  injection Ha as _ <-.
  exists p. cbn [log snd self_port self_cdl sent trace str_self_port].
  split_and!; try reflexivity.
  - intros q ->. cbn in Hd. now injection Hd.
  - eexists. reflexivity.
  - intros c Hc. unfold requests.
    erewrite invoke_run by reflexivity.
    pose proof (wire_args_sends c) as Hw.
    destruct (wire_args c) as [[args|]|e]; try congruence.
    cbn [snd]. now rewrite new_events_sent.
Qed.

Lemma connect_success_witness :
  let s' := snd (connect None None None (demo_state 1 true)) in
  exists p : port_t,
    self_port s' = Some p /\
    self_cdl s' = Some (mkServerProxy (server_uri p) true).
Proof.
  assert (H5 : (0 <= default 5 None)%Q) by discriminate.
  assert (H10 : (1 <= default 10 None)%Z) by (cbn; lia).
  assert (Hok : fst (connect None None None (demo_state 1 true)) = Ok tt)
    by (vm_compute; reflexivity).
  destruct (connect_success None None None (demo_state 1 true) H5 H10 Hok)
    as (p & Hp & Hc & _).
  exists p. split; [exact Hp | exact Hc].
Defined.

(** X17. An exception of an attempt that is not a [CDLConnectionError]
    ends [connect] at once: after [j] failed attempts and their waits,
    [connect] raises that exception and stops in the state the attempt
    left: no wait, no further attempt, no closing line. *)
Theorem connect_reraises `{P : Platform} `{Srv : !Server}
    (port : option port_t) (timeout : option Q) (retries : option Z)
    (s sj sj' : pstate) (j : nat) (e : exn) :
  let t := default 5%Q timeout in
  let r := default 10%Z retries in
  (0 <= t)%Q -> (1 <= r)%Z -> (j < Z.to_nat r)%nat ->
  after_failures j port (t / inject_Z r) (announced s) = Some sj ->
  __connect_to_server port sj = (Raise e, sj') ->
  is_CDLConnectionError e = false ->
  connect port timeout retries s = (Raise e, sj').
Proof.
  cbv zeta. intros Ht Hr Hj Hfail Hraise He.
  rewrite (connect_run port timeout retries s Ht Hr).
  assert (Hn : Z.to_nat (default 10%Z retries)
               = (j + S (Z.to_nat (default 10%Z retries) - S j))%nat) by lia.
  rewrite Hn.
  now rewrite (connect_loop_other port _ _ j _ _ _ _ e Hfail Hraise He).
Qed.

Lemma connect_reraises_witness :
  fst (@connect demo_platform broken_server None None None
         (demo_state 0 true))
  = Raise (OtherError "ProtocolError") /\
  attempts (trace (snd (@connect demo_platform broken_server None None None
                          (demo_state 0 true)))) = 1%nat.
Proof.
  assert (H5 : (0 <= default 5 None)%Q) by discriminate.
  assert (H10 : (1 <= default 10 None)%Z) by (cbn; lia).
  assert (Hj : (0 < Z.to_nat (default 10%Z None))%nat) by (cbn; lia).
  eassert (Ha : @__connect_to_server demo_platform broken_server None
                  (announced (demo_state 0 true))
                = (Raise (OtherError "ProtocolError"), _))
    by (vm_compute; reflexivity).
  rewrite (@connect_reraises demo_platform broken_server None None None
             (demo_state 0 true) _ _ 0 _ H5 H10 Hj eq_refl Ha eq_refl).
  split; vm_compute; reflexivity.
Defined.



Section ConnectInvariants.

Context `{P : Platform} `{Srv : !Server}.

Lemma discovery_nil_env_reads (evs : list event) :
  discovery evs = [] -> env_reads evs = 0%nat.
Proof.
  unfold discovery, env_reads.
  induction evs as [|ev evs IH]; [reflexivity|].
  cbn [List.filter]. destruct ev; cbn [is_discovery is_getenv];
    try discriminate; exact IH.
Qed.

Lemma lookups_match_app (port : option port_t) (a b : list event) :
  lookups_match port a -> lookups_match port b -> lookups_match port (a ++ b).
Proof.
  unfold lookups_match. destruct port.
  - intros Ha Hb. now rewrite discovery_app, Ha, Hb.
  - intros Ha Hb. now rewrite env_reads_app, attempts_app, Ha, Hb.
Qed.

Lemma lookups_match_attempt (port : option port_t) (s : pstate) :
  exists evs,
    trace (snd (__connect_to_server port s)) = trace s ++ evs /\
    lookups_match port evs.
Proof.
  destruct (attempt_events port s) as (rpc & Htr & Hrpc).
  eexists. split; [exact Htr|].
  change (EvEnter "__connect_to_server" :: consulted port (environ s) ++ rpc)
    with ([EvEnter "__connect_to_server"] ++ consulted port (environ s) ++ rpc).
  assert (Hr : discovery rpc = [] /\ attempts rpc = 0%nat).
  { destruct Hrpc as [-> | (p & ->)]; now split. }
  destruct Hr as (Hd & Ha).
  unfold lookups_match, consulted. destruct port.
  - now rewrite !discovery_app, Hd.
  - rewrite !env_reads_app, !attempts_app, Ha,
      (discovery_nil_env_reads rpc Hd).
    destruct (environ s !! "CDL_XMLRPCPORT" ≫= int_of_str); reflexivity.
Qed.

Lemma probes_only_app (a b : list event) :
  probes_only a -> probes_only b -> probes_only (a ++ b).
Proof.
  intros (Fa & La) (Fb & Lb). unfold probes_only.
  rewrite rpc_calls_app, attempts_app, List.length_app. split; [|lia].
  apply Forall_app. now split.
Qed.

Lemma probes_only_attempt (port : option port_t) (s : pstate) :
  exists evs,
    trace (snd (__connect_to_server port s)) = trace s ++ evs /\
    probes_only evs.
Proof.
  destruct (attempt_events port s) as (rpc & Htr & Hrpc).
  eexists. split; [exact Htr|].
  change (EvEnter "__connect_to_server" :: consulted port (environ s) ++ rpc)
    with ([EvEnter "__connect_to_server"] ++ consulted port (environ s) ++ rpc).
  destruct (consulted_timeline port (environ s)) as (Ht & _ & Hc & _).
  unfold probes_only.
  rewrite !rpc_calls_app, !attempts_app, Hc.
  destruct Hrpc as [-> | (p & ->)]; cbn.
  - split; [constructor | lia].
  - split; [repeat constructor | lia].
Qed.

End ConnectInvariants.

(** X19. With a port passed by the caller, [connect] never reads the
    environment nor the configuration file, however many attempts it
    makes. Without one, the port is looked up afresh at every attempt:
    the environment is read once per attempt, so that a DataLab started
    while the client waits is found by the next attempt. *)
Theorem connect_lookups `{P : Platform} `{Srv : !Server}
    (port : option port_t) (timeout : option Q) (retries : option Z)
    (s : pstate) :
  (0 <= default 5%Q timeout)%Q -> (1 <= default 10%Z retries)%Z ->
  let evs := new_events s (snd (connect port timeout retries s)) in
  match port with
  | Some _ => discovery evs = []
  | None => env_reads evs = attempts evs
  end.
Proof.
  intros Ht Hr. cbv zeta.
  destruct (connect_loop_invariant port (default 5%Q timeout)
              (default 10%Z retries) (lookups_match port))
    with (n := Z.to_nat (default 10%Z retries)) (s := announced s)
    as (evs & Htr & Hevs).
  - now destruct port.
  - apply lookups_match_app.
  - now destruct port.
  - apply lookups_match_attempt.
  - destruct (connect_events_shape port timeout retries s Ht Hr evs Htr)
      as (closing & -> & Hc).
    change (lookups_match port
              ([EvPrint "Connecting to DataLab XML-RPC server..."]
                 ++ evs ++ closing)).
    apply lookups_match_app; [now destruct port|].
    apply lookups_match_app; [exact Hevs|].
    destruct Hc as [-> | (text & ->)]; now destruct port.
Qed.

Lemma connect_lookups_witness :
  discovery (new_events (demo_state 2 true)
               (snd (connect (Some (PortInt 8000)) None None
                       (demo_state 2 true)))) = [] /\
  env_reads (new_events (demo_state 2 true)
               (snd (connect None None None (demo_state 2 true)))) = 3%nat.
Proof.
  assert (H5 : (0 <= default 5 None)%Q) by discriminate.
  assert (H10 : (1 <= default 10 None)%Z) by (cbn; lia).
  split.
  - exact (connect_lookups (Some (PortInt 8000)) None None
             (demo_state 2 true) H5 H10).
  - rewrite (connect_lookups None None None (demo_state 2 true) H5 H10).
    vm_compute. reflexivity.
Defined.

(** X20. All that [connect] ever asks the server is its version: every
    request it sends is [get_version()], without argument, and it sends
    at most one per attempt. *)
Theorem connect_probes_only `{P : Platform} `{Srv : !Server}
    (port : option port_t) (timeout : option Q) (retries : option Z)
    (s : pstate) :
  (0 <= default 5%Q timeout)%Q -> (1 <= default 10%Z retries)%Z ->
  let evs := new_events s (snd (connect port timeout retries s)) in
  Forall (fun ev => is_get_version ev = true) (rpc_calls evs) /\
  (requests s (snd (connect port timeout retries s)) <= attempts evs)%nat.
Proof.
  intros Ht Hr. cbv zeta.
  destruct (connect_loop_invariant port (default 5%Q timeout)
              (default 10%Z retries) probes_only)
    with (n := Z.to_nat (default 10%Z retries)) (s := announced s)
    as (evs & Htr & Hevs).
  - split; [constructor | cbn; lia].
  - apply probes_only_app.
  - intros secs. split; [constructor | cbn; lia].
  - apply probes_only_attempt.
  - destruct (connect_events_shape port timeout retries s Ht Hr evs Htr)
      as (closing & Hnew & Hc).
    unfold requests. rewrite Hnew.
    change (probes_only
              ([EvPrint "Connecting to DataLab XML-RPC server..."]
                 ++ evs ++ closing)).
    apply probes_only_app; [split; [constructor | cbn; lia]|].
    apply probes_only_app; [exact Hevs|].
    destruct Hc as [-> | (text & ->)]; (split; [constructor | cbn; lia]).
Qed.

Lemma connect_probes_only_witness :
  (requests (demo_state 2 true)
     (snd (connect None None None (demo_state 2 true))) <= 3)%nat.
Proof.
  assert (H5 : (0 <= default 5 None)%Q) by discriminate.
  assert (H10 : (1 <= default 10 None)%Z) by (cbn; lia).
  destruct (connect_probes_only None None None (demo_state 2 true) H5 H10)
    as (_ & Hle).
  etransitivity; [exact Hle|]. vm_compute. lia.
Defined.
